(** * fortiap-switch-dashboard: the two utility scripts

    A shallow embedding of [install-cert-ssh.py] (script 1) and of
    [vss-to-svg-converter.py] (script 2), and the properties of their
    command-line behaviour.

    Conventions of the embedding.
    - A Python [str] is a Rocq [string], read as the UTF-8 bytes of the text.
      The string methods the scripts call ([strip], [replace], [lower],
      [endswith], [in], [os.path.splitext], [os.path.join]) are modelled on
      these bytes: [strip] removes the UTF-8 encodings of the white-space
      code points of [str.isspace], [lower] maps the ASCII capitals (no
      byte of a multi-byte UTF-8 sequence is an ASCII byte, so suffix and
      substring tests are exact on all text).
    - [print] appends one entry to the list of printed lines.
    - [sys.exit n] stops the run with exit code [n]; a run that reaches the
      end of the script has exit code 0.
    - The operating system and the external tools (the [expect] interpreter,
      the diagram SDK) are oracles over an abstract world: every theorem
      holds whatever they answer.  [InstallCertSsh] and [VssToSvg] describe
      the runs in which the calls of the operating system return;
      [InstallCertSshRaising] describes script 1 with the calls that raise,
      an exception that nothing catches ending the process with exit code
      1.  An exception of the diagram SDK is a value, because script 2
      catches it. *)

From Stdlib Require Import String Ascii ZArith List Lia Bool.
From stdpp Require Import base strings list gmap pretty.

Local Open Scope string_scope.

(** stdpp blocks the unfolding of string concatenation; the transcripts
    below are concatenations of literals and must evaluate. *)
#[local] Arguments String.append !s1 s2 : simpl nomatch.

(** ** Python's string and path functions *)

Module Py.

(** The characters the transcripts need and a Rocq literal cannot hold. *)
Definition dq : string := String "034"%char EmptyString.
Definition nl : string := String "010"%char EmptyString.
Definition bs : string := String "092"%char EmptyString.

(** [a.startswith(b)] *)
Fixpoint startswith (s pre : string) {struct pre} : bool :=
  match pre, s with
  | EmptyString, _ => true
  | String _ _, EmptyString => false
  | String b pre', String a s' => Ascii.eqb a b && startswith s' pre'
  end.

Fixpoint drop (n : nat) (s : string) : string :=
  match n, s with
  | O, _ => s
  | S _, EmptyString => EmptyString
  | S k, String _ s' => drop k s'
  end.

(** [s.endswith(suf)]: the last [len(suf)] characters of [s] are [suf]. *)
Definition endswith (s suf : string) : bool :=
  (String.length suf <=? String.length s)%nat
  && String.eqb (drop (String.length s - String.length suf) s) suf.

(** [sub in s] *)
Fixpoint contains (sub s : string) : bool :=
  startswith s sub
  || match s with
     | EmptyString => false
     | String _ s' => contains sub s'
     end.

(** [s.replace(old, new)] for a non-empty [old]: occurrences are taken
    from left to right and do not overlap; [skip] counts the characters
    of an occurrence that are still to be passed over. *)
Fixpoint replace_from (old new : string) (skip : nat) (s : string) : string :=
  match s with
  | EmptyString => EmptyString
  | String c s' =>
      match skip with
      | S k => replace_from old new k s'
      | O =>
          if startswith s old
          then new +:+ replace_from old new (String.length old - 1) s'
          else String c (replace_from old new O s')
      end
  end.

Definition replace (old new s : string) : string := replace_from old new O s.

(** [str.lower] on one character: the ASCII capitals. *)
Definition lower_char (c : ascii) : ascii :=
  let n := nat_of_ascii c in
  if (65 <=? n)%nat && (n <=? 90)%nat then ascii_of_nat (n + 32) else c.

Fixpoint lower (s : string) : string :=
  match s with
  | EmptyString => EmptyString
  | String c s' => String (lower_char c) (lower s')
  end.

(** [s.rfind(c)] for a one-character [c]: the last index, or -1. *)
Fixpoint rfind_from (c : ascii) (s : string) (i last : Z) : Z :=
  match s with
  | EmptyString => last
  | String a s' => rfind_from c s' (i + 1) (if Ascii.eqb a c then i else last)
  end.

Definition rfind (c : ascii) (s : string) : Z := rfind_from c s 0 (-1).

Fixpoint take (n : nat) (s : string) : string :=
  match n, s with
  | O, _ => EmptyString
  | S _, EmptyString => EmptyString
  | S k, String c s' => String c (take k s')
  end.

(** The white-space code points of [str.isspace], each as its UTF-8
    bytes: U+0009 to U+000D, U+001C to U+0020, U+0085, U+00A0, U+1680,
    U+2000 to U+200A, U+2028, U+2029, U+202F, U+205F and U+3000. *)
Definition utf8 (bytes : list nat) : string :=
  List.fold_right (fun n s => String (ascii_of_nat n) s) EmptyString bytes.

Definition whitespace : list string :=
  List.map utf8
    [ [9]; [10]; [11]; [12]; [13]; [28]; [29]; [30]; [31]; [32];
      [194; 133]; [194; 160]; [225; 154; 128];
      [226; 128; 128]; [226; 128; 129]; [226; 128; 130]; [226; 128; 131];
      [226; 128; 132]; [226; 128; 133]; [226; 128; 134]; [226; 128; 135];
      [226; 128; 136]; [226; 128; 137]; [226; 128; 138];
      [226; 128; 168]; [226; 128; 169]; [226; 128; 175]; [226; 129; 159];
      [227; 128; 128] ].

(** [s] without the white-space code point it starts with, if it starts
    with one. *)
Fixpoint chop_left (table : list string) (s : string) : option string :=
  match table with
  | [] => None
  | sp :: table' =>
      if startswith s sp then Some (drop (String.length sp) s)
      else chop_left table' s
  end.

(** [s] without the white-space code point it ends with, if it ends with
    one.  In UTF-8 no encoding of a code point is the end of the encoding
    of another, so the bytes of [sp] at the end of a text are the code
    point itself. *)
Fixpoint chop_right (table : list string) (s : string) : option string :=
  match table with
  | [] => None
  | sp :: table' =>
      if endswith s sp then Some (take (String.length s - String.length sp) s)
      else chop_right table' s
  end.

(** The scan of [lstrip] and of [rstrip]: cut for as long as there is
    white space at the end.  Each cut removes one byte at least, so the
    length of the text bounds the number of cuts. *)
Fixpoint cut_while (chop : string -> option string) (fuel : nat) (s : string)
  : string :=
  match fuel with
  | O => s
  | S k =>
      match chop s with
      | Some rest => cut_while chop k rest
      | None => s
      end
  end.

Definition lstrip (s : string) : string :=
  cut_while (chop_left whitespace) (String.length s) s.

Definition rstrip (s : string) : string :=
  cut_while (chop_right whitespace) (String.length s) s.

(** [s.strip()]: leading and trailing white space removed. *)
Definition strip (s : string) : string := rstrip (lstrip s).

(** The [while] loop of [genericpath._splitext]: is there a character
    other than the dot among the [n] characters from [filenameIndex] on? *)
Fixpoint has_non_dot (p : string) (filenameIndex n : nat) : bool :=
  match n with
  | O => false
  | S k =>
      if negb (String.eqb (take 1 (drop filenameIndex p)) ".")
      then true
      else has_non_dot p (S filenameIndex) k
  end.

(** [os.path.splitext] of [posixpath]: the extension starts at the last
    dot of the last path component; leading dots of that component are
    not an extension. *)
Definition splitext (p : string) : string * string :=
  let sepIndex := rfind "/"%char p in
  let dotIndex := rfind "."%char p in
  if (sepIndex <? dotIndex)%Z
  then
    let filenameIndex := Z.to_nat (sepIndex + 1) in
    if has_non_dot p filenameIndex (Z.to_nat dotIndex - filenameIndex)
    then (take (Z.to_nat dotIndex) p, drop (Z.to_nat dotIndex) p)
    else (p, EmptyString)
  else (p, EmptyString).

(** [os.path.join(a, b)] of [posixpath], two components. *)
Definition join (a b : string) : string :=
  if startswith b "/" then b
  else if String.eqb a EmptyString || endswith a "/" then a +:+ b
  else a +:+ "/" +:+ b.

(** [str(n)] for a length. *)
Definition str_of_nat (n : nat) : string := pretty n.

End Py.

(** ** Vocabulary of the statements about strings *)

Module Text.


(** Every character of [s] is the dot. *)
Fixpoint only_dots (s : string) : bool :=
  match s with
  | EmptyString => true
  | String c s' => Ascii.eqb c "."%char && only_dots s'
  end.

(** The character [c] occurs in [s]. *)
Fixpoint has_char (c : ascii) (s : string) : bool :=
  match s with
  | EmptyString => false
  | String a s' => Ascii.eqb a c || has_char c s'
  end.

(** [s] neither starts nor ends with a white-space code point. *)
Definition trimmed (s : string) : Prop :=
  forall sp, In sp Py.whitespace ->
    Py.startswith s sp = false /\ Py.endswith s sp = false.


(** [s] with a backslash put before each double quote, every other
    character kept. *)
Fixpoint backslash_quotes (s : string) : string :=
  match s with
  | EmptyString => EmptyString
  | String c s' =>
      if Ascii.eqb c "034"%char
      then String "092"%char (String "034"%char (backslash_quotes s'))
      else String c (backslash_quotes s')
  end.

(** [sub] occurs in [s]. *)
Definition occurs (sub s : string) : Prop :=
  exists pre post, s = pre +:+ sub +:+ post.

End Text.

(** ** Runs of a script

    A script is a function from the state of the run to a result and a new
    state; [sys.exit] cuts the rest of the script short. *)

Module Proc.

Inductive Res (A : Type) : Type :=
| Ret (a : A)
| Exit (code : Z).
Arguments Ret {A} a.
Arguments Exit {A} code.

Definition M (S A : Type) : Type := S -> Res A * S.

Definition ret {S A} (a : A) : M S A := fun st => (Ret a, st).

Definition bind {S A B} (m : M S A) (k : A -> M S B) : M S B :=
  fun st =>
    match m st with
    | (Ret a, st') => k a st'
    | (Exit n, st') => (Exit n, st')
    end.

Definition sys_exit {S A} (n : Z) : M S A := fun st => (Exit n, st).

(** The exit code of the process: the code given to [sys.exit], or 0 at
    the end of the script. *)
Definition exit_code {A} (r : Res A) : Z :=
  match r with
  | Ret _ => 0
  | Exit n => n
  end.

Module Notations.
Notation "x <- m ;; k" := (bind m (fun x => k))
  (at level 100, m at next level, right associativity).
Notation "m ;;; k" := (bind m (fun _ => k))
  (at level 100, right associativity).
End Notations.

End Proc.

(** ** Runs in which a call may raise

    A call returns, ends the process through [sys.exit], or raises an
    exception; an exception that no [try] catches ends the process with
    the traceback and exit code 1. *)

Module ProcRaising.

Inductive Outcome (A : Type) : Type :=
| Returned (a : A)
| Exited (code : Z)
| Raised (e : string).
Arguments Returned {A} a.
Arguments Exited {A} code.
Arguments Raised {A} e.

Definition M (S A : Type) : Type := S -> Outcome A * S.

Definition ret {S A} (a : A) : M S A := fun st => (Returned a, st).

Definition bind {S A B} (m : M S A) (k : A -> M S B) : M S B :=
  fun st =>
    match m st with
    | (Returned a, st') => k a st'
    | (Exited n, st') => (Exited n, st')
    | (Raised e, st') => (Raised e, st')
    end.

Definition sys_exit {S A} (n : Z) : M S A := fun st => (Exited n, st).

(** The exit code of the process: the code given to [sys.exit], 0 at
    the end of the script, and 1 after the traceback of an exception
    that nothing caught. *)
Definition exit_code {A} (r : Outcome A) : Z :=
  match r with
  | Returned _ => 0
  | Exited n => n
  | Raised _ => 1
  end.

Module Notations.
Notation "x <- m ;; k" := (bind m (fun x => k))
  (at level 100, m at next level, right associativity).
Notation "m ;;; k" := (bind m (fun _ => k))
  (at level 100, right associativity).
End Notations.

(** [try: body except Exception as e: handler e].  [sys.exit] raises
    [SystemExit], which is not an [Exception]: it passes through. *)
Definition try_except {S A} (body : M S A) (handler : string -> M S A) : M S A :=
  fun st =>
    match body st with
    | (Raised e, st') => handler e st'
    | other => other
    end.

(** The result of a run without exception, as a result of this module. *)
Definition lift {A} (r : Proc.Res A) : Outcome A :=
  match r with
  | Proc.Ret a => Returned a
  | Proc.Exit n => Exited n
  end.

End ProcRaising.

(** ** Script 1: install-cert-ssh.py *)

Module InstallCertSsh.
Import Proc Proc.Notations.

(** The configuration constants at the head of the script.  The
    statements below hold for every value of them.  The function
    [run_ssh_command] of the script is never called and takes part in
    no run. *)
Record Config := {
  FORTIGATE_IP : string;
  FORTIGATE_USER : string;
  FORTIGATE_PASS : string;
  CERT_DIR : string
}.

(** What [subprocess.Popen(['expect'], ...)] followed by
    [proc.communicate(script)] gives back. *)
Record Completed := {
  returncode : Z;
  stdout : string;
  stderr : string
}.

(** The machine the script runs on: [os.path.exists], the text
    [f.read()] returns for a path, and the [expect] interpreter fed a
    script on its standard input. *)
Class Env := {
  World : Type;
  path_exists : string -> World -> bool;
  read_text : string -> World -> string;
  expect : string -> World -> Completed * World
}.

Section Script.
Context `{Env}.

(** The state of a run: the world, the lines printed so far and the
    scripts piped to [expect] so far, oldest first. *)
Record State := {
  world : World;
  printed : list string;
  sessions : list string
}.

Definition print (line : string) : M State unit :=
  fun st =>
    (Ret tt, {| world := world st;
                printed := printed st ++ [line];
                sessions := sessions st |}).

Definition os_path_exists (path : string) : M State bool :=
  fun st => (Ret (path_exists path (world st)), st).

(** [Popen(['expect'], ...)] and [communicate(script)]. *)
Definition communicate (script : string) : M State Completed :=
  fun st =>
    let (r, w) := expect script (world st) in
    (Ret r, {| world := w;
               printed := printed st;
               sessions := sessions st ++ [script] |}).

(** [read_file]: the text of the file, stripped. *)
Definition read_file (filepath : string) : M State string :=
  fun st => (Ret (Py.strip (read_text filepath (world st))), st).

End Script.

(** The lines of a triple-quoted transcript: the literal opens with a
    line break and every line ends with one. *)
Fixpoint body (lines : list string) : string :=
  match lines with
  | [] => EmptyString
  | line :: rest => line +:+ Py.nl +:+ body rest
  end.

Definition transcript (lines : list string) : string := Py.nl +:+ body lines.

Definition expect_ (pattern : string) : string :=
  "expect " +:+ Py.dq +:+ pattern +:+ Py.dq.

Definition send (text : string) : string :=
  "send " +:+ Py.dq +:+ text +:+ "\r" +:+ Py.dq.

(** A quoted word inside a sent command: backslash, quote, word,
    backslash, quote. *)
Definition quoted (word : string) : string :=
  Py.bs +:+ Py.dq +:+ word +:+ Py.bs +:+ Py.dq.

Definition spawn_ssh (cfg : Config) : string :=
  "spawn ssh -o StrictHostKeyChecking=no -o UserKnownHostsFile=/dev/null "
  +:+ FORTIGATE_USER cfg +:+ "@" +:+ FORTIGATE_IP cfg.

Definition test_script (cfg : Config) : string :=
  transcript
    [ spawn_ssh cfg;
      expect_ "password:";
      send (FORTIGATE_PASS cfg);
      expect_ "#";
      send "get system status";
      expect_ "#";
      send "exit";
      "expect eof" ].

Definition install_script (cfg : Config)
    (server_cert_escaped private_key_escaped : string) : string :=
  transcript
    [ spawn_ssh cfg;
      "set timeout 60";
      expect_ "password:";
      send (FORTIGATE_PASS cfg);
      expect_ "#";
      EmptyString;
      send "config vpn certificate local";
      expect_ "#";
      EmptyString;
      send ("edit " +:+ quoted "fortigate.netintegrate.net");
      expect_ "#";
      EmptyString;
      send ("set certificate " +:+ quoted server_cert_escaped);
      expect_ "#";
      EmptyString;
      send ("set private-key " +:+ quoted private_key_escaped);
      expect_ "#";
      EmptyString;
      send ("set comments " +:+ quoted "CA-signed certificate from NetIntegrate CA");
      expect_ "#";
      EmptyString;
      send "next";
      expect_ "#";
      EmptyString;
      send "end";
      expect_ "#";
      EmptyString;
      send "exit";
      "expect eof" ].

Definition config_script (cfg : Config) : string :=
  transcript
    [ spawn_ssh cfg;
      expect_ "password:";
      send (FORTIGATE_PASS cfg);
      expect_ "#";
      EmptyString;
      send "config system global";
      expect_ "#";
      EmptyString;
      send ("set admin-server-cert " +:+ quoted "fortigate.netintegrate.net");
      expect_ "#";
      EmptyString;
      send "end";
      expect_ "#";
      EmptyString;
      send "exit";
      "expect eof" ].

(** The escaping of the two texts for the appliance's command line. *)
Definition escape_quotes (s : string) : string :=
  Py.replace Py.dq (Py.bs +:+ Py.dq) s.

Definition cert_file (cfg : Config) : string := Py.join (CERT_DIR cfg) "fortigate.crt".
Definition key_file (cfg : Config) : string := Py.join (CERT_DIR cfg) "fortigate.key".

Definition msg_connect_failed : string := "❌ Cannot connect to FortiGate via SSH".
Definition msg_install_failed : string := "❌ Failed to install certificate".
Definition msg_config_failed : string := "❌ Failed to configure HTTPS certificate".

Definition main `{Env} (cfg : Config) : M State unit :=
  print "🔐 Installing CA-signed certificate on FortiGate via SSH..." ;;;
  print ("📍 Target: " +:+ FORTIGATE_IP cfg) ;;;
  print ("👤 User: " +:+ FORTIGATE_USER cfg) ;;;
  print EmptyString ;;;
  cert_there <- os_path_exists (cert_file cfg) ;;
  key_there <- os_path_exists (key_file cfg) ;;
  (if negb cert_there || negb key_there
   then
     print ("❌ Certificate files not found in " +:+ CERT_DIR cfg +:+ "/") ;;;
     print "   Run: node generate-fortigate-cert.js first" ;;;
     sys_exit 1
   else ret tt) ;;;
  print "📄 Reading certificate files..." ;;;
  server_cert <- read_file (cert_file cfg) ;;
  private_key <- read_file (key_file cfg) ;;
  let server_cert_escaped := escape_quotes server_cert in
  let private_key_escaped := escape_quotes private_key in
  print "🔄 Step 1: Testing SSH connection..." ;;;
  proc <- communicate (test_script cfg) ;;
  (if negb (returncode proc =? 0)%Z || negb (Py.contains "Version:" (stdout proc))
   then
     print msg_connect_failed ;;;
     print "   Check credentials and network connectivity" ;;;
     sys_exit 1
   else ret tt) ;;;
  print "✅ SSH connection successful" ;;;
  print EmptyString ;;;
  print "🔄 Step 2: Installing server certificate and private key..." ;;;
  proc <- communicate (install_script cfg server_cert_escaped private_key_escaped) ;;
  (if negb (returncode proc =? 0)%Z
   then
     print msg_install_failed ;;;
     print ("Error: " +:+ stderr proc) ;;;
     sys_exit 1
   else ret tt) ;;;
  print "✅ Server certificate and private key installed" ;;;
  print EmptyString ;;;
  print "🔄 Step 3: Configuring HTTPS to use new certificate..." ;;;
  proc <- communicate (config_script cfg) ;;
  (if negb (returncode proc =? 0)%Z
   then
     print msg_config_failed ;;;
     sys_exit 1
   else ret tt) ;;;
  print "✅ HTTPS configured to use new certificate" ;;;
  print EmptyString ;;;
  print "✅ Certificate installation completed successfully!" ;;;
  print EmptyString ;;;
  print "🎯 Next steps:" ;;;
  print "1. Wait 30 seconds for FortiGate to apply changes" ;;;
  print "2. Add DNS entry:" ;;;
  print "   echo '192.168.0.254 fortigate.netintegrate.net' | sudo -S tee -a /etc/hosts" ;;;
  print "3. Update your .env file:" ;;;
  print "   FGT_URL=https://fortigate.netintegrate.net:8443" ;;;
  print "   ALLOW_SELF_SIGNED=false" ;;;
  print "4. Test the dashboard: curl http://localhost:59169/api/test" ;;;
  print EmptyString.

(** The process that runs [main] from the world [w]. *)
Definition initial `{Env} (w : World) : State :=
  {| world := w; printed := []; sessions := [] |}.

Definition run `{Env} (cfg : Config) (w : World) : Z * State :=
  let (r, st) := main cfg (initial w) in (exit_code r, st).

(** *** Vocabulary of the statements about script 1

    What a run from the world [w] meets on its way: the two files, the
    texts embedded in the upload, and what the [expect] interpreter
    answers to each session, each one started in the world the
    previous one left. *)
Section Course.
Context `{Env}.

Definition files_present (cfg : Config) (w : World) : bool :=
  path_exists (cert_file cfg) w && path_exists (key_file cfg) w.

Definition upload_script (cfg : Config) (w : World) : string :=
  install_script cfg
    (escape_quotes (Py.strip (read_text (cert_file cfg) w)))
    (escape_quotes (Py.strip (read_text (key_file cfg) w))).

Definition answer1 (cfg : Config) (w : World) : Completed * World :=
  expect (test_script cfg) w.

Definition answer2 (cfg : Config) (w : World) : Completed * World :=
  expect (upload_script cfg w) (snd (answer1 cfg w)).

Definition answer3 (cfg : Config) (w : World) : Completed * World :=
  expect (config_script cfg) (snd (answer2 cfg w)).

(** The connectivity test passed: exit code 0 and [Version:]
    somewhere in the captured output. *)
Definition connected (c : Completed) : Prop :=
  returncode c = 0%Z /\ Text.occurs "Version:" (stdout c).

(** An installation step passed: exit code 0. *)
Definition succeeded (c : Completed) : Prop := returncode c = 0%Z.

End Course.

(** *** The rest of script 1

    [run_ssh_command] opens one session that sends one command.  Its
    parameter [expect_prompts] is not read: the transcript waits for [#]
    whatever the caller passes.  [main] does not call it. *)

Definition expect_script (cfg : Config) (command : string) : string :=
  transcript
    [ spawn_ssh cfg;
      expect_ "password:";
      send (FORTIGATE_PASS cfg);
      expect_ "#";
      send command;
      expect_ "#";
      send "exit";
      "expect eof" ].

Definition run_ssh_command `{Env} (cfg : Config) (command : string)
    (expect_prompts : list string) : M State (Z * string * string) :=
  proc <- communicate (expect_script cfg command) ;;
  ret (returncode proc, stdout proc, stderr proc).

(** Two more of the lines [main] prints. *)
Definition msg_files_missing (cfg : Config) : string :=
  "❌ Certificate files not found in " +:+ CERT_DIR cfg +:+ "/".

Definition msg_completed : string :=
  "✅ Certificate installation completed successfully!".

End InstallCertSsh.

(** ** Script 1 when a call raises

    The script has no [try]: an exception that a call raises ends the
    process, which exits with code 1.  The calls that can raise are
    [print] (the text cannot be encoded for the terminal, the pipe is
    closed), [open] and [f.read] (the path is a directory, may not be
    read, does not hold UTF-8), [Popen] (there is no [expect]
    interpreter) and [communicate] (the captured output is not UTF-8).
    [os.path.exists] turns the errors of the system into [False], and
    the string methods do not raise on strings.

    The module embeds [main] again with these exceptions, on the machine
    of [InstallCertSsh] extended by an oracle that says which calls
    raise.  The embedding above is its restriction to the runs in which
    no call raises. *)

Module InstallCertSshRaising.
Import InstallCertSsh ProcRaising ProcRaising.Notations.

(** The calls of the script that can raise. *)
Inductive Call : Type :=
| Print (line : string)
| Open (filepath : string)
| Popen
| Communicate (script : string).

(** Which call raises, and the text of the exception, in a given state
    of the run. *)
Class Faults `{Env} := {
  raises : Call -> State -> option string
}.

Section Script.
Context `{Faults}.

Definition print (line : string) : M State unit :=
  fun st =>
    match raises (Print line) st with
    | Some e => (Raised e, st)
    | None =>
        (Returned tt, {| world := world st;
                         printed := printed st ++ [line];
                         sessions := sessions st |})
    end.

Definition os_path_exists (path : string) : M State bool :=
  fun st => (Returned (path_exists path (world st)), st).

(** [Popen(['expect'], ...)], which raises before anything is piped, and
    [communicate(script)], which raises once the interpreter has run. *)
Definition communicate (script : string) : M State Completed :=
  fun st =>
    match raises Popen st with
    | Some e => (Raised e, st)
    | None =>
        let (r, w) := expect script (world st) in
        let st' := {| world := w;
                      printed := printed st;
                      sessions := sessions st ++ [script] |} in
        match raises (Communicate script) st with
        | Some e => (Raised e, st')
        | None => (Returned r, st')
        end
    end.

(** [read_file]: [open] and [f.read] raise, or the text is returned
    stripped. *)
Definition read_file (filepath : string) : M State string :=
  fun st =>
    match raises (Open filepath) st with
    | Some e => (Raised e, st)
    | None => (Returned (Py.strip (read_text filepath (world st))), st)
    end.

Definition main (cfg : Config) : M State unit :=
  print "🔐 Installing CA-signed certificate on FortiGate via SSH..." ;;;
  print ("📍 Target: " +:+ FORTIGATE_IP cfg) ;;;
  print ("👤 User: " +:+ FORTIGATE_USER cfg) ;;;
  print EmptyString ;;;
  cert_there <- os_path_exists (cert_file cfg) ;;
  key_there <- os_path_exists (key_file cfg) ;;
  (if negb cert_there || negb key_there
   then
     print ("❌ Certificate files not found in " +:+ CERT_DIR cfg +:+ "/") ;;;
     print "   Run: node generate-fortigate-cert.js first" ;;;
     sys_exit 1
   else ret tt) ;;;
  print "📄 Reading certificate files..." ;;;
  server_cert <- read_file (cert_file cfg) ;;
  private_key <- read_file (key_file cfg) ;;
  let server_cert_escaped := escape_quotes server_cert in
  let private_key_escaped := escape_quotes private_key in
  print "🔄 Step 1: Testing SSH connection..." ;;;
  proc <- communicate (test_script cfg) ;;
  (if negb (returncode proc =? 0)%Z || negb (Py.contains "Version:" (stdout proc))
   then
     print msg_connect_failed ;;;
     print "   Check credentials and network connectivity" ;;;
     sys_exit 1
   else ret tt) ;;;
  print "✅ SSH connection successful" ;;;
  print EmptyString ;;;
  print "🔄 Step 2: Installing server certificate and private key..." ;;;
  proc <- communicate (install_script cfg server_cert_escaped private_key_escaped) ;;
  (if negb (returncode proc =? 0)%Z
   then
     print msg_install_failed ;;;
     print ("Error: " +:+ stderr proc) ;;;
     sys_exit 1
   else ret tt) ;;;
  print "✅ Server certificate and private key installed" ;;;
  print EmptyString ;;;
  print "🔄 Step 3: Configuring HTTPS to use new certificate..." ;;;
  proc <- communicate (config_script cfg) ;;
  (if negb (returncode proc =? 0)%Z
   then
     print msg_config_failed ;;;
     sys_exit 1
   else ret tt) ;;;
  print "✅ HTTPS configured to use new certificate" ;;;
  print EmptyString ;;;
  print "✅ Certificate installation completed successfully!" ;;;
  print EmptyString ;;;
  print "🎯 Next steps:" ;;;
  print "1. Wait 30 seconds for FortiGate to apply changes" ;;;
  print "2. Add DNS entry:" ;;;
  print "   echo '192.168.0.254 fortigate.netintegrate.net' | sudo -S tee -a /etc/hosts" ;;;
  print "3. Update your .env file:" ;;;
  print "   FGT_URL=https://fortigate.netintegrate.net:8443" ;;;
  print "   ALLOW_SELF_SIGNED=false" ;;;
  print "4. Test the dashboard: curl http://localhost:59169/api/test" ;;;
  print EmptyString.

(** What [main] comes to from the world [w], and the process that runs
    it. *)
Definition outcome (cfg : Config) (w : World) : Outcome unit :=
  fst (main cfg (initial w)).

Definition run (cfg : Config) (w : World) : Z * State :=
  let (r, st) := main cfg (initial w) in (exit_code r, st).

(** An exception ended the run. *)
Definition raised (cfg : Config) (w : World) : Prop :=
  exists e, outcome cfg w = Raised e.

(** No call raises, whatever the state of the run. *)
Definition faultless : Prop := forall call st, raises call st = None.

(** The state in which the two files are read, and the state in which
    the first session is started, when no [print] raised. *)
Definition before_reading (cfg : Config) (w : World) : State :=
  {| world := w;
     printed := [ "🔐 Installing CA-signed certificate on FortiGate via SSH...";
                  "📍 Target: " +:+ FORTIGATE_IP cfg;
                  "👤 User: " +:+ FORTIGATE_USER cfg;
                  EmptyString;
                  "📄 Reading certificate files..." ];
     sessions := [] |}.

Definition before_testing (cfg : Config) (w : World) : State :=
  {| world := w;
     printed := printed (before_reading cfg w)
                ++ [ "🔄 Step 1: Testing SSH connection..." ];
     sessions := [] |}.

(** No [print] raises, whatever the state of the run. *)
Definition prints_accepted : Prop := forall line st, raises (Print line) st = None.

(** *** The two embeddings compared *)

(** The state [st'] comes after [st]: more was printed, more sessions
    were opened. *)
Definition extends (st st' : State) : Prop :=
  printed st `prefix_of` printed st' /\ sessions st `prefix_of` sessions st'.

(** The script [mx] with exceptions is the script [m] without them cut
    short: from every state it does what [m] does, or a call raises on
    the way of [m]. *)
Definition refines {A} (mx : M State A) (m : Proc.M State A) : Prop :=
  forall st,
    extends st (snd (m st))
    /\ (mx st = (lift (fst (m st)), snd (m st))
        \/ exists e st' call st0,
             mx st = (Raised e, st')
             /\ raises call st0 = Some e
             /\ extends st st' /\ extends st' (snd (m st))).

End Script.

End InstallCertSshRaising.

(** ** Script 2: vss-to-svg-converter.py *)

Module VssToSvg.
Import Proc Proc.Notations.

Inductive SaveFileFormat := SVG.

(** The machine and the diagram SDK.  [Diagram_new path] is the
    constructor [Diagram(path)] and [Diagram_save d path fmt] the method
    [d.save(path, fmt)]; each answers with the message of the exception
    it raises, or with its result. *)
Class Env := {
  World : Type;
  diagram : Type;
  path_exists : string -> World -> bool;
  path_isdir : string -> World -> bool;
  listdir : string -> World -> list string;
  makedirs : string -> World -> World;
  Diagram_new : string -> World -> (string + diagram) * World;
  Diagram_save : diagram -> string -> SaveFileFormat -> World -> option string * World
}.

(** The calls a run makes, oldest first: the script's own
    [convert_vss_to_svg] and the two entry points of the SDK. *)
Inductive Event :=
| Convert (input_path output_path : string)
| Load (path : string)
| Save (path : string) (fmt : SaveFileFormat).

Section Script.
Context `{Env}.

Record State := {
  world : World;
  printed : list string;
  calls : list Event
}.

Definition print (line : string) : M State unit :=
  fun st =>
    (Ret tt, {| world := world st;
                printed := printed st ++ [line];
                calls := calls st |}).

Definition called (e : Event) : M State unit :=
  fun st =>
    (Ret tt, {| world := world st;
                printed := printed st;
                calls := calls st ++ [e] |}).

Definition os_path_exists (path : string) : M State bool :=
  fun st => (Ret (path_exists path (world st)), st).

Definition os_path_isdir (path : string) : M State bool :=
  fun st => (Ret (path_isdir path (world st)), st).

Definition os_listdir (path : string) : M State (list string) :=
  fun st => (Ret (listdir path (world st)), st).

Definition os_makedirs (path : string) : M State unit :=
  fun st =>
    (Ret tt, {| world := makedirs path (world st);
                printed := printed st;
                calls := calls st |}).

Definition Diagram (path : string) : M State (string + diagram) :=
  fun st =>
    let (r, w) := Diagram_new path (world st) in
    (Ret r, {| world := w;
               printed := printed st;
               calls := calls st ++ [Load path] |}).

Definition save (d : diagram) (path : string) (fmt : SaveFileFormat)
  : M State (option string) :=
  fun st =>
    let (r, w) := Diagram_save d path fmt (world st) in
    (Ret r, {| world := w;
               printed := printed st;
               calls := calls st ++ [Save path fmt] |}).

Definition msg_error (input_path e : string) : string :=
  "❌ Error converting " +:+ input_path +:+ ": " +:+ e.

Definition msg_success (input_path output_path : string) : string :=
  "✅ Successfully converted: " +:+ input_path +:+ " → " +:+ output_path.

(** The [try] block and its [except Exception as e] handler. *)
Definition convert_vss_to_svg (input_path output_path : string) : M State bool :=
  called (Convert input_path output_path) ;;;
  print ("Loading VSS file: " +:+ input_path) ;;;
  loaded <- Diagram input_path ;;
  match loaded with
  | inl e => print (msg_error input_path e) ;;; ret false
  | inr d =>
      print ("Converting to SVG: " +:+ output_path) ;;;
      saved <- save d output_path SVG ;;
      match saved with
      | Some e => print (msg_error input_path e) ;;; ret false
      | None => print (msg_success input_path output_path) ;;; ret true
      end
  end.

Definition is_vss (file : string) : bool := Py.endswith (Py.lower file) ".vss".

(** The first loop of [batch_convert_directory]. *)
Definition find_vss_files (files : list string) : list string :=
  fold_left (fun (vss_files : list string) file =>
               if is_vss file then (vss_files ++ [file])%list else vss_files)
            files [].

Definition output_file_of (vss_file : string) : string :=
  fst (Py.splitext vss_file) +:+ ".svg".

(** The second loop of [batch_convert_directory]. *)
Fixpoint convert_each (input_dir output_dir : string) (vss_files : list string)
    (success_count : nat) : M State nat :=
  match vss_files with
  | [] => ret success_count
  | vss_file :: rest =>
      let input_path := Py.join input_dir vss_file in
      let output_file := output_file_of vss_file in
      let output_path := Py.join output_dir output_file in
      ok <- convert_vss_to_svg input_path output_path ;;
      convert_each input_dir output_dir rest
        (if ok then S success_count else success_count)
  end.

Definition msg_none_found (input_dir : string) : string :=
  "No VSS files found in " +:+ input_dir.

Definition msg_summary (success_count total : nat) : string :=
  Py.nl +:+ "📊 Conversion complete: " +:+ Py.str_of_nat success_count +:+ "/"
  +:+ Py.str_of_nat total +:+ " files converted successfully".

Definition batch_convert_directory (input_dir output_dir : string) : M State unit :=
  os_makedirs output_dir ;;;
  files <- os_listdir input_dir ;;
  let vss_files := find_vss_files files in
  match vss_files with
  | [] => print (msg_none_found input_dir)
  | _ :: _ =>
      print ("Found " +:+ Py.str_of_nat (List.length vss_files) +:+ " VSS files to convert") ;;;
      success_count <- convert_each input_dir output_dir vss_files 0 ;;
      print (msg_summary success_count (List.length vss_files))
  end.

Definition usage : M State unit :=
  print "Usage:" ;;;
  print "  python vss-to-svg-converter.py input.vss output.svg" ;;;
  print "  python vss-to-svg-converter.py --batch input_dir output_dir" ;;;
  sys_exit 1.

(** The [if __name__ == "__main__"] block; [argv] is [sys.argv]. *)
Definition main (argv : list string) : M State unit :=
  match argv with
  | [_; input_file; output_file] =>
      there <- os_path_exists input_file ;;
      (if negb there
       then print ("❌ Input file not found: " +:+ input_file) ;;; sys_exit 1
       else ret tt) ;;;
      _ <- convert_vss_to_svg input_file output_file ;;
      ret tt
  | [_; flag; input_dir; output_dir] =>
      if String.eqb flag "--batch"
      then
        is_dir <- os_path_isdir input_dir ;;
        (if negb is_dir
         then print ("❌ Input directory not found: " +:+ input_dir) ;;; sys_exit 1
         else ret tt) ;;;
        batch_convert_directory input_dir output_dir
      else usage
  | _ => usage
  end.

Definition initial (w : World) : State :=
  {| world := w; printed := []; calls := [] |}.

Definition run (argv : list string) (w : World) : Z * State :=
  let (r, st) := main argv (initial w) in (exit_code r, st).

End Script.

(** *** Vocabulary of the statements about script 2 *)
Section Course.
Context `{Env}.

(** What the SDK does with one file from the world [w]: the message
    of the exception it raises, or [None] when the stencil is loaded
    and saved; and the world it leaves. *)
Definition attempt (input_path output_path : string) (w : World)
  : option string * World :=
  match Diagram_new input_path w with
  | (inl e, w1) => (Some e, w1)
  | (inr d, w1) => Diagram_save d output_path SVG w1
  end.

Definition no_exception (outcome : option string) : bool :=
  match outcome with
  | None => true
  | Some _ => false
  end.

Definition input_path_of (input_dir vss_file : string) : string :=
  Py.join input_dir vss_file.

Definition output_path_of (output_dir vss_file : string) : string :=
  Py.join output_dir (fst (Py.splitext vss_file) +:+ ".svg").

(** The outcomes of the files of a batch, each attempted in the world
    the previous one left, and the world after the last. *)
Fixpoint attempts (input_dir output_dir : string) (vss_files : list string)
    (w : World) : list (option string) :=
  match vss_files with
  | [] => []
  | vss_file :: rest =>
      let (outcome, w') :=
        attempt (input_path_of input_dir vss_file)
                (output_path_of output_dir vss_file) w in
      outcome :: attempts input_dir output_dir rest w'
  end.

Fixpoint world_after (input_dir output_dir : string) (vss_files : list string)
    (w : World) : World :=
  match vss_files with
  | [] => w
  | vss_file :: rest =>
      world_after input_dir output_dir rest
        (snd (attempt (input_path_of input_dir vss_file)
                      (output_path_of output_dir vss_file) w))
  end.

(** How many files were converted, and how many were not. *)
Definition converted (outcomes : list (option string)) : nat :=
  List.length (List.filter no_exception outcomes).


Definition is_convert (e : Event) : bool :=
  match e with
  | Convert _ _ => true
  | _ => false
  end.

(** The calls of [convert_vss_to_svg] among the calls of a run. *)
Definition conversions (st : State) : list Event :=
  List.filter is_convert (calls st).

(** A batch run from the world [w]: the directory is listed once the
    output directory is made. *)
Definition batch (input_dir output_dir : string) (w : World) : Res unit * State :=
  batch_convert_directory input_dir output_dir (initial w).

Definition listing (input_dir output_dir : string) (w : World) : list string :=
  listdir input_dir (makedirs output_dir w).

Definition selected (input_dir output_dir : string) (w : World) : list string :=
  List.filter is_vss (listing input_dir output_dir w).

Definition outcomes (input_dir output_dir : string) (w : World)
  : list (option string) :=
  attempts input_dir output_dir (selected input_dir output_dir w)
    (makedirs output_dir w).


(** The output name as the list of behaviours words it: the name of a
    selected file with its extension, the four characters the selection
    matched, replaced by [.svg]. *)
Definition with_svg_extension (file : string) : string :=
  Py.take (String.length file - 4) file +:+ ".svg".

End Course.

(** *** More vocabulary: the calls of the SDK and the usage text *)

Definition is_load (e : Event) : bool :=
  match e with
  | Load _ => true
  | _ => false
  end.

Definition is_save (e : Event) : bool :=
  match e with
  | Save _ _ => true
  | _ => false
  end.

(** A printed line is a verdict when it starts as the success line or as
    the error line of [convert_vss_to_svg] does. *)
Definition is_verdict (line : string) : bool :=
  Py.startswith line "✅ Successfully converted: "
  || Py.startswith line "❌ Error converting ".

Definition usage_lines : list string :=
  [ "Usage:";
    "  python vss-to-svg-converter.py input.vss output.svg";
    "  python vss-to-svg-converter.py --batch input_dir output_dir" ].

End VssToSvg.

(** ** Concrete machines

    Small machines on which the scripts can be run: they give the
    inputs of the examples below.  The machine of script 2 is also the
    model of a diagram SDK whose result is a function of the content of
    the file it loads, for which the repeated conversion is studied. *)

Module Lab.

(** Script 1: a table of text files, and the answers the [expect]
    interpreter gives to the successive sessions (when the list is used
    up, the interpreter fails). *)
Record Bench := {
  texts : gmap string string;
  answers : list InstallCertSsh.Completed
}.

Definition no_answer : InstallCertSsh.Completed :=
  {| InstallCertSsh.returncode := 1;
     InstallCertSsh.stdout := EmptyString;
     InstallCertSsh.stderr := "spawn failed" |}.

Definition ok_answer (out : string) : InstallCertSsh.Completed :=
  {| InstallCertSsh.returncode := 0;
     InstallCertSsh.stdout := out;
     InstallCertSsh.stderr := EmptyString |}.


Definition bench_env : InstallCertSsh.Env := {|
  InstallCertSsh.World := Bench;
  InstallCertSsh.path_exists p w := bool_decide (is_Some (texts w !! p));
  InstallCertSsh.read_text p w := default EmptyString (texts w !! p);
  InstallCertSsh.expect script w :=
    match answers w with
    | [] => (no_answer, w)
    | a :: rest => (a, {| texts := texts w; answers := rest |})
    end
|}.

(** The address, the user and the certificate directory are the
    script's; the password constant is not reproduced, no statement
    depends on it. *)
Definition cfg : InstallCertSsh.Config :=
  {| InstallCertSsh.FORTIGATE_IP := "192.168.0.254";
     InstallCertSsh.FORTIGATE_USER := "admin";
     InstallCertSsh.FORTIGATE_PASS := "secret";
     InstallCertSsh.CERT_DIR := "./certificates" |}.

Definition pem (body : string) : string :=
  "-----BEGIN-----" +:+ Py.nl +:+ body +:+ Py.nl +:+ "-----END-----" +:+ Py.nl.

Definition cert_texts : gmap string string :=
  <[ "./certificates/fortigate.crt" := pem "Q0VSVA==" ]>
    (<[ "./certificates/fortigate.key" := pem "S0VZ" ]> ∅).

Definition status_output : string :=
  "FGT # get system status" +:+ Py.nl +:+ "Version: FortiGate-60E v6.4.5" +:+ Py.nl.

Definition bench (answers : list InstallCertSsh.Completed) : Bench :=
  {| texts := cert_texts; answers := answers |}.

(** The appliance answers the three sessions. *)
Definition reachable : Bench :=
  bench [ok_answer status_output; ok_answer EmptyString; ok_answer EmptyString].


(** The session runs, but the banner of the appliance is not shown. *)
Definition silent : Bench := bench [ok_answer "FGT # "].

(** Script 2: regular files with their content and directories with
    their listing.  The diagram SDK is a function of the content of the
    file it is given: [parse] reads a stencil, [render] writes it as
    SVG, and each may refuse with a message. *)
Record Disk := {
  files : gmap string string;
  dirs : gmap string (list string)
}.

Section Sdk.
Variable D : Type.
Variable parse : string -> string + D.
Variable render : D -> string + string.

Definition disk_env : VssToSvg.Env := {|
  VssToSvg.World := Disk;
  VssToSvg.diagram := D;
  VssToSvg.path_exists p w :=
    bool_decide (is_Some (files w !! p)) || bool_decide (is_Some (dirs w !! p));
  VssToSvg.path_isdir p w := bool_decide (is_Some (dirs w !! p));
  VssToSvg.listdir p w := default [] (dirs w !! p);
  VssToSvg.makedirs p w :=
    match dirs w !! p with
    | Some _ => w
    | None => {| files := files w; dirs := <[ p := [] ]> (dirs w) |}
    end;
  VssToSvg.Diagram_new p w :=
    (match files w !! p with
     | None => inl ("File not found: " +:+ p)
     | Some content => parse content
     end, w);
  VssToSvg.Diagram_save d p fmt w :=
    match render d with
    | inl e => (Some e, w)
    | inr svg => (None, {| files := <[ p := svg ]> (files w); dirs := dirs w |})
    end
|}.

(** The SVG of a content, or the message of the refusal. *)
Definition svg_of (content : string) : string + string :=
  match parse content with
  | inl e => inl e
  | inr d => render d
  end.

(** One conversion from the disk [w]: what [convert_vss_to_svg]
    returns, and the disk it leaves. *)
Definition convert_on (input_path output_path : string) (w : Disk)
  : Proc.Res bool * Disk :=
  let (r, st) :=
    @VssToSvg.convert_vss_to_svg disk_env input_path output_path
      (@VssToSvg.initial disk_env w) in
  (r, @VssToSvg.world disk_env st).

(** What becomes of the file at [path] of the disk [w] when it is
    converted from its content there: the message of the refusal, or
    [None]. *)
Definition verdict_on (path : string) (w : Disk) : option string :=
  match files w !! path with
  | None => Some ("File not found: " +:+ path)
  | Some content =>
      match svg_of content with
      | inl e => Some e
      | inr _ => None
      end
  end.
End Sdk.

(** A stand-in SDK: a stencil is a text that starts with [VSS]. *)
Definition toy_parse (content : string) : string + string :=
  if Py.startswith content "VSS" then inr content else inl "Unsupported file format".

Definition toy_render (d : string) : string + string :=
  inr ("<svg>" +:+ d +:+ "</svg>").

Definition toy_env : VssToSvg.Env := disk_env string toy_parse toy_render.

Definition toy_convert_on : string -> string -> Disk -> Proc.Res bool * Disk :=
  convert_on string toy_parse toy_render.


(** A disk that holds one of the stencils and nothing else. *)
Definition one_stencil : Disk :=
  {| files := <[ "in/ap.vss" := "VSS access point" ]> ∅; dirs := ∅ |}.

Definition stencils : Disk :=
  {| files :=
       <[ "in/Switch.VSS" := "VSS switch" ]>
         (<[ "in/ap.vss" := "VSS access point" ]>
            (<[ "in/broken.vss" := "not a stencil" ]>
               (<[ "in/notes.txt" := "notes" ]> ∅)));
     dirs := <[ "in" := ["Switch.VSS"; "ap.vss"; "broken.vss"; "notes.txt"] ]> ∅ |}.

(** The bench on which no call raises. *)
Definition no_faults : @InstallCertSshRaising.Faults bench_env :=
  {| InstallCertSshRaising.raises := fun _ _ => None |}.

(** The bench on which [./certificates/fortigate.crt] is a directory:
    the path exists, and [open] raises. *)
Definition cert_is_directory : @InstallCertSshRaising.Faults bench_env :=
  {| InstallCertSshRaising.raises := fun call _ =>
       match call with
       | InstallCertSshRaising.Open filepath =>
           if String.eqb filepath "./certificates/fortigate.crt"
           then Some "IsADirectoryError: [Errno 21] Is a directory: './certificates/fortigate.crt'"
           else None
       | _ => None
       end |}.



(** A directory whose only stencil is a hidden file without a stem. *)
Definition hidden : Disk :=
  {| files := <[ "in/.vss" := "VSS hidden" ]> ∅;
     dirs := <[ "in" := [".vss"] ]> ∅ |}.


(** Two stencils whose names differ by the case of the extension. *)
Definition twins : Disk :=
  {| files := <[ "in/ap.vss" := "VSS small" ]> (<[ "in/ap.VSS" := "VSS large" ]> ∅);
     dirs := <[ "in" := ["ap.vss"; "ap.VSS"] ]> ∅ |}.

End Lab.


(** * Properties *)

(** ** The embedding on small inputs *)

Example strip_pem : Py.strip ("  -----BEGIN-----" +:+ Py.nl) = "-----BEGIN-----".
Proof. reflexivity. Qed.

(** A no-break space before and an ideographic space after the text. *)
Example strip_unicode_space :
  Py.strip (Py.utf8 [194; 160] +:+ "a b" +:+ Py.utf8 [227; 128; 128] +:+ Py.nl)
  = "a b".
Proof. reflexivity. Qed.

(** The bytes 0x80 0x80 that end the letter U+20000 are not white space. *)
Example strip_keeps_continuation_bytes :
  Py.strip (Py.utf8 [240; 160; 128; 128]) = Py.utf8 [240; 160; 128; 128].
Proof. reflexivity. Qed.

Example splitext_plain : Py.splitext "Switch.VSS" = ("Switch", ".VSS").
Proof. reflexivity. Qed.

Example splitext_hidden : Py.splitext ".vss" = (".vss", EmptyString).
Proof. reflexivity. Qed.

Example splitext_dir : Py.splitext "a.b/c" = ("a.b/c", EmptyString).
Proof. reflexivity. Qed.

Example join_plain :
  Py.join "./certificates" "fortigate.crt" = "./certificates/fortigate.crt".
Proof. reflexivity. Qed.

Example join_slash : Py.join "out/" "ap.svg" = "out/ap.svg".
Proof. reflexivity. Qed.

Example replace_quote :
  Py.replace Py.dq (Py.bs +:+ Py.dq) ("a" +:+ Py.dq +:+ "b")
  = "a" +:+ Py.bs +:+ Py.dq +:+ "b".
Proof. reflexivity. Qed.

Example replace_word : Py.replace "ab" "x" "cababab" = "cxxx".
Proof. reflexivity. Qed.

Example contains_version : Py.contains "Version:" Lab.status_output = true.
Proof. reflexivity. Qed.

Example str_of_nat_12 : Py.str_of_nat 12 = "12".
Proof. reflexivity. Qed.

Example selected_stencils :
  VssToSvg.find_vss_files ["Switch.VSS"; "ap.vss"; "broken.vss"; "notes.txt"]
  = ["Switch.VSS"; "ap.vss"; "broken.vss"].
Proof. reflexivity. Qed.

Example test_script_lines :
  InstallCertSsh.test_script Lab.cfg
  = Py.nl
    +:+ "spawn ssh -o StrictHostKeyChecking=no -o UserKnownHostsFile=/dev/null admin@192.168.0.254"
    +:+ Py.nl +:+ "expect " +:+ Py.dq +:+ "password:" +:+ Py.dq
    +:+ Py.nl +:+ "send " +:+ Py.dq +:+ "secret\r" +:+ Py.dq
    +:+ Py.nl +:+ "expect " +:+ Py.dq +:+ "#" +:+ Py.dq
    +:+ Py.nl +:+ "send " +:+ Py.dq +:+ "get system status\r" +:+ Py.dq
    +:+ Py.nl +:+ "expect " +:+ Py.dq +:+ "#" +:+ Py.dq
    +:+ Py.nl +:+ "send " +:+ Py.dq +:+ "exit\r" +:+ Py.dq
    +:+ Py.nl +:+ "expect eof" +:+ Py.nl.
Proof. reflexivity. Qed.

(** ** Strings *)

Section StringFacts.

Lemma str_app_nil_r (s : string) : s +:+ EmptyString = s.
Proof. induction s as [|c s IH]; simpl; [reflexivity | now rewrite IH]. Qed.

Lemma str_app_assoc (a b c : string) : (a +:+ b) +:+ c = a +:+ (b +:+ c).
Proof. induction a as [|x a IH]; simpl; [reflexivity | now rewrite IH]. Qed.

Lemma str_length_app (a b : string) :
  String.length (a +:+ b) = String.length a + String.length b.
Proof. induction a as [|x a IH]; simpl; [reflexivity | now rewrite IH]. Qed.

Lemma startswith_spec (s pre : string) :
  Py.startswith s pre = true <-> exists post, s = pre +:+ post.
Proof.
  revert s; induction pre as [|b pre IH]; intros s; simpl.
  - split; [intros _; now exists s | reflexivity].
  - destruct s as [|a s].
    + split; [discriminate | intros [post Hp]; discriminate].
    + rewrite andb_true_iff, Ascii.eqb_eq, IH. split.
      * intros [-> [post ->]]. now exists post.
      * intros [post Hp]. injection Hp as -> ->. split; [reflexivity | now exists post].
Qed.

Lemma contains_spec (sub s : string) :
  Py.contains sub s = true <-> exists pre post, s = pre +:+ sub +:+ post.
Proof.
  induction s as [|a s IH].
  - cbn [Py.contains]. rewrite orb_false_r, startswith_spec. split.
    + intros [post Hp]. now exists EmptyString, post.
    + intros [pre [post Hp]]. destruct pre; [now exists post | discriminate].
  - cbn [Py.contains]. rewrite orb_true_iff, startswith_spec, IH. split.
    + intros [[post Hp] | [pre [post Hp]]].
      * now exists EmptyString, post.
      * exists (String a pre), post. simpl. now rewrite Hp.
    + intros [pre [post Hp]]. destruct pre as [|x pre]; simpl in Hp.
      * left. now exists post.
      * right. injection Hp as _ Hp. now exists pre, post.
Qed.

Lemma drop_app (a b : string) : Py.drop (String.length a) (a +:+ b) = b.
Proof. induction a as [|x a IH]; simpl; [now destruct b | exact IH]. Qed.

Lemma take_app (a b : string) : Py.take (String.length a) (a +:+ b) = a.
Proof. induction a as [|x a IH]; simpl; [now destruct b | now rewrite IH]. Qed.

Lemma take_drop (n : nat) (s : string) : Py.take n s +:+ Py.drop n s = s.
Proof.
  revert s; induction n as [|n IH]; intros [|c s]; simpl; try reflexivity.
  now rewrite IH.
Qed.

Lemma length_drop (n : nat) (s : string) :
  String.length (Py.drop n s) = String.length s - n.
Proof.
  revert s; induction n as [|n IH]; intros [|c s]; simpl; try reflexivity.
  apply IH.
Qed.

Lemma length_take (n : nat) (s : string) :
  n <= String.length s -> String.length (Py.take n s) = n.
Proof.
  revert s; induction n as [|n IH]; intros [|c s]; simpl; intros Hn; try lia.
  rewrite IH; lia.
Qed.

Lemma endswith_spec (s suf : string) :
  Py.endswith s suf = true <-> exists pre, s = pre +:+ suf.
Proof.
  unfold Py.endswith. rewrite andb_true_iff, Nat.leb_le, String.eqb_eq. split.
  - intros [_ Hd].
    exists (Py.take (String.length s - String.length suf) s).
    rewrite <- (take_drop (String.length s - String.length suf) s) at 1.
    now rewrite Hd.
  - intros [pre ->]. rewrite str_length_app. split; [lia |].
    replace (String.length pre + String.length suf - String.length suf)
      with (String.length pre) by lia.
    apply drop_app.
Qed.

End StringFacts.

Section StripFacts.




Lemma chop_left_none (table : list string) (s : string) :
  Py.chop_left table s = None <->
  forall sp, In sp table -> Py.startswith s sp = false.
Proof.
  induction table as [|sp table IH]; cbn [Py.chop_left].
  - split; [intros _ sp [] | reflexivity].
  - destruct (Py.startswith s sp) eqn:E.
    + split; [discriminate |]. intros H.
      specialize (H sp (or_introl eq_refl)). congruence.
    + rewrite IH. split.
      * intros H sp' [<- | Hin]; [exact E | now apply H].
      * intros H sp' Hin. apply H. now right.
Qed.


Lemma chop_right_none (table : list string) (s : string) :
  Py.chop_right table s = None <->
  forall sp, In sp table -> Py.endswith s sp = false.
Proof.
  induction table as [|sp table IH]; cbn [Py.chop_right].
  - split; [intros _ sp [] | reflexivity].
  - destruct (Py.endswith s sp) eqn:E.
    + split; [discriminate |]. intros H.
      specialize (H sp (or_introl eq_refl)). congruence.
    + rewrite IH. split.
      * intros H sp' [<- | Hin]; [exact E | now apply H].
      * intros H sp' Hin. apply H. now right.
Qed.



Lemma cut_while_fixed (chop : string -> option string) (fuel : nat) (s : string) :
  chop s = None -> Py.cut_while chop fuel s = s.
Proof. intros H. destruct fuel; cbn [Py.cut_while]; [reflexivity | now rewrite H]. Qed.











Lemma strip_trimmed (s : string) : Text.trimmed s -> Py.strip s = s.
Proof.
  intros Htrim. unfold Py.strip, Py.lstrip, Py.rstrip.
  rewrite (cut_while_fixed (Py.chop_left Py.whitespace)).
  - apply cut_while_fixed, chop_right_none. intros sp Hin. now apply Htrim.
  - apply chop_left_none. intros sp Hin. now apply Htrim.
Qed.


End StripFacts.

Section SuffixFacts.

Lemma lower_app (a b : string) : Py.lower (a +:+ b) = Py.lower a +:+ Py.lower b.
Proof. induction a as [|x a IH]; simpl; [reflexivity | now rewrite IH]. Qed.

Lemma lower_drop (n : nat) (s : string) : Py.lower (Py.drop n s) = Py.drop n (Py.lower s).
Proof.
  revert s; induction n as [|n IH]; intros [|c s]; simpl; try reflexivity.
  apply IH.
Qed.

Lemma lower_char_dot (c : ascii) : Py.lower_char c = "."%char -> c = "."%char.
Proof.
  destruct c as [[] [] [] [] [] [] [] []]; vm_compute; intros E;
    solve [reflexivity | discriminate E].
Qed.

Lemma lower_char_letter (c l : ascii) :
  Py.lower_char c = l -> (l = "v"%char \/ l = "s"%char) ->
  Ascii.eqb c "."%char = false.
Proof.
  intros E [-> | ->]; destruct c as [[] [] [] [] [] [] [] []];
    vm_compute in E; solve [reflexivity | discriminate E].
Qed.

(** A name is selected when it ends, whatever the case of the
    letters, with [.vss]. *)
Lemma is_vss_spec (file : string) :
  VssToSvg.is_vss file = true
  <-> exists stem ext, file = stem +:+ ext /\ Py.lower ext = ".vss".
Proof.
  unfold VssToSvg.is_vss. rewrite endswith_spec. split.
  - intros [pre Hpre].
    exists (Py.take (String.length pre) file), (Py.drop (String.length pre) file).
    split; [symmetry; apply take_drop |].
    rewrite lower_drop, Hpre. apply drop_app.
  - intros [stem [ext [-> Hext]]]. exists (Py.lower stem).
    now rewrite lower_app, Hext.
Qed.

Lemma rfind_from_absent (c : ascii) (s : string) (i last : Z) :
  Text.has_char c s = false -> Py.rfind_from c s i last = last.
Proof.
  revert i last; induction s as [|a s IH]; intros i last; simpl; [reflexivity |].
  rewrite orb_false_iff. intros [-> Hs]. now apply IH.
Qed.

Lemma rfind_from_last (c : ascii) (pre post : string) (i last : Z) :
  Text.has_char c post = false ->
  Py.rfind_from c (pre +:+ String c post) i last
  = (i + Z.of_nat (String.length pre))%Z.
Proof.
  intros Hpost. revert i last; induction pre as [|a pre IH]; intros i last.
  - simpl. rewrite Ascii.eqb_refl, rfind_from_absent by exact Hpost. lia.
  - cbn [String.append Py.rfind_from String.length]. rewrite IH. lia.
Qed.

Lemma drop_cons (i : nat) (p : string) :
  i < String.length p -> exists a, Py.drop i p = String a (Py.drop (S i) p).
Proof.
  revert p; induction i as [|i IH]; intros [|c p]; simpl; intros Hi; try lia.
  - exists c. now destruct p.
  - apply IH. lia.
Qed.

Lemma has_non_dot_spec (p : string) (n i : nat) :
  i + n <= String.length p ->
  Py.has_non_dot p i n = negb (Text.only_dots (Py.take n (Py.drop i p))).
Proof.
  revert i; induction n as [|n IH]; intros i Hi; [reflexivity |].
  destruct (drop_cons i p) as [a Ha]; [lia |].
  cbn [Py.has_non_dot]. rewrite Ha. cbn [Py.take Text.only_dots].
  change (String.eqb (String a EmptyString) ".") with (Ascii.eqb a "."%char && true).
  rewrite andb_true_r. destruct (Ascii.eqb a "."%char); simpl; [| reflexivity].
  apply IH. lia.
Qed.

(** [os.path.splitext] on a selected name that is a single path
    component: the four characters of the suffix are the extension,
    unless nothing but dots precedes them. *)
Lemma splitext_vss (stem ext : string) :
  Py.lower ext = ".vss" ->
  Text.has_char "/"%char (stem +:+ ext) = false ->
  Py.splitext (stem +:+ ext)
  = if Text.only_dots stem then (stem +:+ ext, EmptyString) else (stem, ext).
Proof.
  intros Hext Hsep.
  destruct ext as [|e0 [|e1 [|e2 [|e3 [|e4 ext]]]]]; try discriminate Hext.
  injection Hext as H0 H1 H2 H3.
  apply lower_char_dot in H0. subst e0.
  assert (Hpost : Text.has_char "."%char (String e1 (String e2 (String e3 EmptyString))) = false).
  { simpl.
    rewrite (lower_char_letter e1 _ H1), (lower_char_letter e2 _ H2),
      (lower_char_letter e3 _ H3); auto. }
  unfold Py.splitext, Py.rfind.
  rewrite (rfind_from_absent _ _ _ _ Hsep), (rfind_from_last _ _ _ _ _ Hpost).
  replace ((-1 <? 0 + Z.of_nat (String.length stem))%Z) with true
    by (symmetry; apply Z.ltb_lt; lia).
  change (Z.to_nat (-1 + 1)) with 0.
  rewrite Z.add_0_l, Nat2Z.id, Nat.sub_0_r.
  rewrite has_non_dot_spec by (rewrite str_length_app; simpl; lia).
  rewrite drop_app.
  replace (Py.drop 0 (stem +:+ String "." (String e1 (String e2 (String e3 EmptyString)))))
    with (stem +:+ String "." (String e1 (String e2 (String e3 EmptyString))))
    by (now destruct stem).
  rewrite take_app. now destruct (Text.only_dots stem).
Qed.

End SuffixFacts.

(** ** Script 1 *)

Section InstallCertSshFacts.
Import Proc InstallCertSsh.
Context `{Env}.

(** Deciding whether a printed line is a given message. *)
Ltac not_this_line H :=
  cbv [msg_connect_failed msg_install_failed msg_config_failed] in H;
  cbn [String.append] in H; discriminate H.

Ltac absent_line :=
  let H := fresh "H" in
  cbv [In]; intros H;
  repeat (destruct H as [H | H]; [not_this_line H |]); exact H.

Ltac step_run :=
  cbv [run main bind print os_path_exists read_file communicate
    sys_exit ret initial world printed sessions exit_code
    files_present answer1 answer2 answer3 upload_script fst snd negb andb orb].

(** The five courses a run can take. *)
Lemma run_course (cfg : Config) (w : World) :
  if negb (files_present cfg w)
  then fst (run cfg w) = 1%Z
       /\ sessions (snd (run cfg w)) = []
       /\ ~ In msg_connect_failed (printed (snd (run cfg w)))
  else if negb ((returncode (fst (answer1 cfg w)) =? 0)%Z
                && Py.contains "Version:" (stdout (fst (answer1 cfg w))))
  then fst (run cfg w) = 1%Z
       /\ sessions (snd (run cfg w)) = [test_script cfg]
       /\ In msg_connect_failed (printed (snd (run cfg w)))
  else if negb (returncode (fst (answer2 cfg w)) =? 0)%Z
  then fst (run cfg w) = 1%Z
       /\ sessions (snd (run cfg w)) = [test_script cfg; upload_script cfg w]
       /\ ~ In msg_connect_failed (printed (snd (run cfg w)))
  else if negb (returncode (fst (answer3 cfg w)) =? 0)%Z
  then fst (run cfg w) = 1%Z
       /\ sessions (snd (run cfg w))
          = [test_script cfg; upload_script cfg w; config_script cfg]
       /\ ~ In msg_connect_failed (printed (snd (run cfg w)))
  else fst (run cfg w) = 0%Z
       /\ sessions (snd (run cfg w))
          = [test_script cfg; upload_script cfg w; config_script cfg]
       /\ ~ In msg_connect_failed (printed (snd (run cfg w))).
Proof.
  step_run.
  destruct (path_exists (cert_file cfg) w);
    [destruct (path_exists (key_file cfg) w) |];
    cbv beta iota; cbv [app];
    try (split; [reflexivity | split; [reflexivity | absent_line]]).
  destruct (expect (test_script cfg) w) as [a1 w1]. cbv beta iota.
  destruct (returncode a1 =? 0)%Z;
    [destruct (Py.contains "Version:" (stdout a1)) |];
    cbv beta iota; cbv [app];
    try (split; [reflexivity | split; [reflexivity | cbv [In]; tauto]]).
  destruct (expect _ w1) as [a2 w2]. cbv beta iota.
  destruct (returncode a2 =? 0)%Z; cbv beta iota; cbv [app];
    try (split; [reflexivity | split; [reflexivity | absent_line]]).
  destruct (expect _ w2) as [a3 w3]. cbv beta iota.
  destruct (returncode a3 =? 0)%Z; cbv beta iota; cbv [app];
    split; try reflexivity; split; try reflexivity; absent_line.
Qed.

Lemma connected_spec (c : Completed) :
  (returncode c =? 0)%Z && Py.contains "Version:" (stdout c) = true <-> connected c.
Proof.
  unfold connected, Text.occurs.
  now rewrite andb_true_iff, Z.eqb_eq, contains_spec.
Qed.

Lemma succeeded_spec (c : Completed) :
  (returncode c =? 0)%Z = true <-> succeeded c.
Proof. unfold succeeded. apply Z.eqb_eq. Qed.

(** The course of a run, read off the answers of the machine. *)
Ltac passed H spec := apply spec in H.
Ltac failed H spec := apply not_true_iff_false in H; rewrite spec in H.

Ltac course cfg w :=
  pose proof (run_course cfg w) as Hrun;
  destruct (files_present cfg w) eqn:Hfiles; cbn [negb] in Hrun;
  [ destruct ((returncode (fst (answer1 cfg w)) =? 0)%Z
              && Py.contains "Version:" (stdout (fst (answer1 cfg w)))) eqn:H1;
    cbn [negb] in Hrun;
    [ passed H1 connected_spec;
      destruct (returncode (fst (answer2 cfg w)) =? 0)%Z eqn:H2;
      cbn [negb] in Hrun;
      [ passed H2 succeeded_spec;
        destruct (returncode (fst (answer3 cfg w)) =? 0)%Z eqn:H3;
        cbn [negb] in Hrun;
        [ passed H3 succeeded_spec | failed H3 succeeded_spec ]
      | failed H2 succeeded_spec ]
    | failed H1 connected_spec ]
  | ];
  destruct Hrun as [Hcode [Hsessions Hline]].

(** The exit code when no call raises: 1 when one of the two
    certificate files is missing (and then no session is started), when
    the connectivity test fails, or when one of the two installation
    steps fails; 0 otherwise. *)
Lemma main_exit_code (cfg : Config) (w : World) :
  (path_exists (cert_file cfg) w = false \/ path_exists (key_file cfg) w = false ->
   fst (run cfg w) = 1%Z /\ sessions (snd (run cfg w)) = [])
  /\ (~ connected (fst (answer1 cfg w)) -> fst (run cfg w) = 1%Z)
  /\ (~ succeeded (fst (answer2 cfg w)) \/ ~ succeeded (fst (answer3 cfg w)) ->
      fst (run cfg w) = 1%Z)
  /\ (path_exists (cert_file cfg) w = true -> path_exists (key_file cfg) w = true ->
      connected (fst (answer1 cfg w)) ->
      succeeded (fst (answer2 cfg w)) -> succeeded (fst (answer3 cfg w)) ->
      fst (run cfg w) = 0%Z).
Proof.
  assert (Hp : files_present cfg w = false
               -> path_exists (cert_file cfg) w = false
                  \/ path_exists (key_file cfg) w = false)
    by (unfold files_present; apply andb_false_iff).
  assert (Hq : files_present cfg w = true
               -> path_exists (cert_file cfg) w = true
                  /\ path_exists (key_file cfg) w = true)
    by (unfold files_present; apply andb_true_iff).
  course cfg w; rewrite Hcode, Hsessions;
    first [specialize (Hq eq_refl) | specialize (Hp eq_refl)];
    repeat split; intros; try reflexivity; exfalso; intuition congruence.
Qed.

(** C4. Once the two files are there, the connectivity test fails --
    the connectivity message is printed and the exit code is 1 -- exactly
    when the exit code of the [expect] process is not 0 or [Version:]
    does not occur in the captured output. *)
Theorem connectivity_test_fails_iff (cfg : Config) (w : World) :
  files_present cfg w = true ->
  (In msg_connect_failed (printed (snd (run cfg w))) /\ fst (run cfg w) = 1%Z)
  <-> (returncode (fst (answer1 cfg w)) <> 0%Z
       \/ ~ Text.occurs "Version:" (stdout (fst (answer1 cfg w)))).
Proof.
  intros Hthere.
  assert (Hdec : ~ connected (fst (answer1 cfg w))
                 <-> returncode (fst (answer1 cfg w)) <> 0%Z
                     \/ ~ Text.occurs "Version:" (stdout (fst (answer1 cfg w)))).
  { unfold connected. destruct (Z.eq_dec (returncode (fst (answer1 cfg w))) 0%Z); tauto. }
  rewrite <- Hdec.
  course cfg w; try discriminate Hthere; tauto.
Qed.


Lemma body_app (a b : list string) : body (a ++ b) = body a +:+ body b.
Proof.
  induction a as [|l a IH]; cbn [body app]; [reflexivity |].
  now rewrite IH, !str_app_assoc.
Qed.


(** [replace] of the double quote by backslash and double quote is the
    character-by-character escaping. *)
Lemma escape_quotes_spec (s : string) : escape_quotes s = Text.backslash_quotes s.
Proof.
  unfold escape_quotes, Py.replace.
  induction s as [|c s IH]; [reflexivity |].
  cbn [Py.replace_from Py.dq Py.bs Py.startswith String.length Nat.sub
       Text.backslash_quotes].
  rewrite andb_true_r.
  destruct (Ascii.eqb c "034"%char); cbn [String.append]; now rewrite <- IH.
Qed.


End InstallCertSshFacts.

(** ** Script 1 when a call raises *)

Section InstallCertSshRaisingFacts.
Import ProcRaising InstallCertSsh InstallCertSshRaising.
Context `{Faults}.

Lemma extends_refl (st : State) : extends st st.
Proof. split; reflexivity. Qed.

Lemma extends_trans (a b c : State) : extends a b -> extends b c -> extends a c.
Proof. intros [H1 H2] [H3 H4]. split; etrans; eassumption. Qed.

Lemma refines_ret {A} (a : A) : refines (ret a) (Proc.ret a).
Proof. intros st. split; [apply extends_refl | now left]. Qed.

Lemma refines_sys_exit {A} (n : Z) :
  refines (sys_exit (A := A) n) (Proc.sys_exit n).
Proof. intros st. split; [apply extends_refl | now left]. Qed.

Lemma refines_bind {A B} (mx : M State A) (m : Proc.M State A)
    (kx : A -> M State B) (k : A -> Proc.M State B) :
  refines mx m -> (forall a, refines (kx a) (k a)) ->
  refines (bind mx kx) (Proc.bind m k).
Proof.
  intros Hm Hk st. unfold bind, Proc.bind.
  destruct (Hm st) as [Hext Hrun]. destruct (m st) as [[a | n] st1]; cbn [fst snd] in *.
  - destruct (Hk a st1) as [Hext' Hrun'].
    split; [now apply (extends_trans _ st1) |].
    destruct Hrun as [-> | [e [st' [call [st0 [-> [Hcall [He1 He2]]]]]]]]; cbn [lift].
    + destruct Hrun' as [-> | [e [st' [call [st0 [-> [Hcall [He1 He2]]]]]]]]; [now left |].
      right. exists e, st', call, st0.
      split; [reflexivity | split; [exact Hcall | split; [| exact He2]]].
      now apply (extends_trans _ st1).
    + right. exists e, st', call, st0.
      split; [reflexivity | split; [exact Hcall | split; [exact He1 |]]].
      now apply (extends_trans _ st1).
  - split; [exact Hext |].
    destruct Hrun as [-> | [e [st' [call [st0 [-> [Hcall [He1 He2]]]]]]]]; cbn [lift].
    + now left.
    + right. now exists e, st', call, st0.
Qed.

Lemma refines_if {A} (b : bool) (mx1 mx2 : M State A) (m1 m2 : Proc.M State A) :
  refines mx1 m1 -> refines mx2 m2 ->
  refines (if b then mx1 else mx2) (if b then m1 else m2).
Proof. now destruct b. Qed.

Lemma refines_print (line : string) :
  refines (print line) (InstallCertSsh.print line).
Proof.
  intros st. unfold print, InstallCertSsh.print. cbn [fst snd lift].
  assert (Hext : extends st {| world := world st;
                               printed := printed st ++ [line];
                               sessions := sessions st |}).
  { split; cbn [printed sessions]; [now apply prefix_app_r | reflexivity]. }
  split; [exact Hext |].
  destruct (raises (Print line) st) as [e |] eqn:Hcall; [| now left].
  right. exists e, st, (Print line), st.
  split; [reflexivity | split; [exact Hcall | split; [apply extends_refl | exact Hext]]].
Qed.

Lemma refines_os_path_exists (path : string) :
  refines (os_path_exists path) (InstallCertSsh.os_path_exists path).
Proof. intros st. split; [apply extends_refl | now left]. Qed.

Lemma refines_read_file (filepath : string) :
  refines (read_file filepath) (InstallCertSsh.read_file filepath).
Proof.
  intros st. unfold read_file, InstallCertSsh.read_file. cbn [fst snd lift].
  split; [apply extends_refl |].
  destruct (raises (Open filepath) st) as [e |] eqn:Hcall; [| now left].
  right. exists e, st, (Open filepath), st.
  split; [reflexivity | split; [exact Hcall | split; apply extends_refl]].
Qed.

Lemma refines_communicate (script : string) :
  refines (communicate script) (InstallCertSsh.communicate script).
Proof.
  intros st. unfold communicate, InstallCertSsh.communicate.
  destruct (expect script (world st)) as [r w]. cbn [fst snd lift].
  assert (Hext : extends st {| world := w;
                               printed := printed st;
                               sessions := sessions st ++ [script] |}).
  { split; cbn [printed sessions]; [reflexivity | now apply prefix_app_r]. }
  split; [exact Hext |].
  destruct (raises Popen st) as [e |] eqn:Hpopen.
  { right. exists e, st, Popen, st.
    split; [reflexivity | split; [exact Hpopen | split; [apply extends_refl | exact Hext]]]. }
  destruct (raises (Communicate script) st) as [e |] eqn:Hcall; [| now left].
  right. eexists e, _, (Communicate script), st.
  split; [reflexivity | split; [exact Hcall | split; [exact Hext | apply extends_refl]]].
Qed.

Ltac refines_step :=
  lazymatch goal with
  | |- refines (bind _ _) (Proc.bind _ _) => apply refines_bind; [| intros ?]
  | |- refines (print _) _ => apply refines_print
  | |- refines (os_path_exists _) _ => apply refines_os_path_exists
  | |- refines (read_file _) _ => apply refines_read_file
  | |- refines (communicate _) _ => apply refines_communicate
  | |- refines (ret _) _ => apply refines_ret
  | |- refines (sys_exit _) _ => apply refines_sys_exit
  | |- refines (if _ then _ else _) _ => apply refines_if
  end.

Lemma main_refines (cfg : Config) : refines (main cfg) (InstallCertSsh.main cfg).
Proof.
  unfold main, InstallCertSsh.main. cbv zeta.
  repeat refines_step.
Qed.

Lemma exit_code_lift {A} (r : Proc.Res A) : exit_code (lift r) = Proc.exit_code r.
Proof. now destruct r. Qed.

(** A run with exceptions is the run without them, or a call raised and
    the run is a beginning of it that exits with code 1. *)
Lemma run_refines (cfg : Config) (w : World) :
  (~ raised cfg w /\ run cfg w = InstallCertSsh.run cfg w)
  \/ (raised cfg w
      /\ fst (run cfg w) = 1%Z
      /\ extends (snd (run cfg w)) (snd (InstallCertSsh.run cfg w))
      /\ exists call st e, raises call st = Some e).
Proof.
  unfold raised, outcome, run, InstallCertSsh.run.
  destruct (main_refines cfg (initial w)) as [_ Hrun].
  destruct (InstallCertSsh.main cfg (initial w)) as [r st1]. cbn [fst snd] in Hrun.
  destruct Hrun as [-> | [e [st' [call [st0 [-> [Hcall [_ Hext]]]]]]]]; cbn [fst snd].
  - left. split; [| now rewrite exit_code_lift].
    intros [e He]. now destruct r.
  - right. split; [now exists e |].
    split; [reflexivity | split; [exact Hext | now exists call, st0, e]].
Qed.

Ltac step_raising :=
  cbv [outcome run main bind print os_path_exists read_file communicate
    sys_exit ret initial before_reading before_testing
    world printed sessions exit_code files_present fst snd negb andb orb app].

(** A certificate file or a key file that is there and cannot be read
    ends the run before any session. *)
Lemma unreadable_file_raises (cfg : Config) (w : World) (e : string) :
  files_present cfg w = true ->
  prints_accepted ->
  raises (Open (cert_file cfg)) (before_reading cfg w) = Some e
  \/ (raises (Open (cert_file cfg)) (before_reading cfg w) = None
      /\ raises (Open (key_file cfg)) (before_reading cfg w) = Some e) ->
  main cfg (initial w) = (Raised e, before_reading cfg w).
Proof.
  unfold files_present. rewrite andb_true_iff. intros [Hcert Hkey] Hprint Hread.
  step_raising. rewrite !Hprint, Hcert, Hkey. cbv beta iota. rewrite !Hprint.
  revert Hread. step_raising.
  intros [-> | [-> ->]]; reflexivity.
Qed.

(** An [expect] interpreter that cannot be started ends the run before
    any session. *)
Lemma missing_interpreter_raises (cfg : Config) (w : World) (e : string) :
  files_present cfg w = true ->
  prints_accepted ->
  raises (Open (cert_file cfg)) (before_reading cfg w) = None ->
  raises (Open (key_file cfg)) (before_reading cfg w) = None ->
  raises Popen (before_testing cfg w) = Some e ->
  main cfg (initial w) = (Raised e, before_testing cfg w).
Proof.
  unfold files_present. rewrite andb_true_iff.
  intros [Hcert Hkey] Hprint Hread1 Hread2 Hpopen.
  step_raising. rewrite !Hprint, Hcert, Hkey. cbv beta iota. rewrite !Hprint.
  revert Hread1 Hread2 Hpopen. step_raising.
  intros -> ->. rewrite !Hprint. intros ->. reflexivity.
Qed.

(** C3, as amended. The process exits with code 1 when one of the two
    certificate files is missing (and then no session is started), when
    the connectivity test fails, when one of the two installation steps
    fails, or when a call raises an exception, which nothing in the
    script catches; in every other run it exits with code 0, and the run
    is the one described without exceptions.  A run raises only where a
    call raises; with both files there and the lines printed, it does
    raise, before any session, when one of the two files cannot be read
    or the [expect] interpreter cannot be started. *)
Theorem main_exit_code_or_exception (cfg : Config) (w : World) :
  (path_exists (cert_file cfg) w = false \/ path_exists (key_file cfg) w = false ->
   fst (run cfg w) = 1%Z /\ sessions (snd (run cfg w)) = [])
  /\ (raised cfg w -> fst (run cfg w) = 1%Z)
  /\ (~ connected (fst (answer1 cfg w)) -> fst (run cfg w) = 1%Z)
  /\ (~ succeeded (fst (answer2 cfg w)) \/ ~ succeeded (fst (answer3 cfg w)) ->
      fst (run cfg w) = 1%Z)
  /\ (path_exists (cert_file cfg) w = true -> path_exists (key_file cfg) w = true ->
      connected (fst (answer1 cfg w)) ->
      succeeded (fst (answer2 cfg w)) -> succeeded (fst (answer3 cfg w)) ->
      ~ raised cfg w ->
      fst (run cfg w) = 0%Z)
  /\ (~ raised cfg w -> run cfg w = InstallCertSsh.run cfg w)
  /\ (raised cfg w -> exists call st e, raises call st = Some e)
  /\ (forall e,
        files_present cfg w = true ->
        prints_accepted ->
        raises (Open (cert_file cfg)) (before_reading cfg w) = Some e
        \/ (raises (Open (cert_file cfg)) (before_reading cfg w) = None
            /\ raises (Open (key_file cfg)) (before_reading cfg w) = Some e) ->
        run cfg w = (1%Z, before_reading cfg w))
  /\ (forall e,
        files_present cfg w = true ->
        prints_accepted ->
        raises (Open (cert_file cfg)) (before_reading cfg w) = None ->
        raises (Open (key_file cfg)) (before_reading cfg w) = None ->
        raises Popen (before_testing cfg w) = Some e ->
        run cfg w = (1%Z, before_testing cfg w)).
Proof.
  destruct (main_exit_code cfg w) as [Hmissing [Htest [Hstep Hdone]]].
  assert (Hfaults :
    (forall e,
        files_present cfg w = true ->
        prints_accepted ->
        raises (Open (cert_file cfg)) (before_reading cfg w) = Some e
        \/ (raises (Open (cert_file cfg)) (before_reading cfg w) = None
            /\ raises (Open (key_file cfg)) (before_reading cfg w) = Some e) ->
        run cfg w = (1%Z, before_reading cfg w))
    /\ (forall e,
          files_present cfg w = true ->
          prints_accepted ->
          raises (Open (cert_file cfg)) (before_reading cfg w) = None ->
          raises (Open (key_file cfg)) (before_reading cfg w) = None ->
          raises Popen (before_testing cfg w) = Some e ->
          run cfg w = (1%Z, before_testing cfg w))).
  { split.
    - intros e Hthere Hprint Hread. unfold run.
      now rewrite (unreadable_file_raises cfg w e Hthere Hprint Hread).
    - intros e Hthere Hprint Hread1 Hread2 Hpopen. unfold run.
      now rewrite (missing_interpreter_raises cfg w e Hthere Hprint Hread1 Hread2 Hpopen). }
  destruct (run_refines cfg w) as [[Hquiet Hsame] | [Hraised [Hcode [Hext Hcall]]]].
  - rewrite Hsame in *. repeat split; tauto.
  - split; [| repeat split; tauto].
    intros Hnone. split; [exact Hcode |].
    destruct (Hmissing Hnone) as [_ Hsessions].
    destruct Hext as [_ Hpre]. rewrite Hsessions in Hpre.
    now apply prefix_nil_inv in Hpre.
Qed.

End InstallCertSshRaisingFacts.


(** *** Script 1 on the bench *)

Section InstallCertSshRuns.
Import InstallCertSsh.

Lemma bench_files_present (answers : list Completed) :
  @files_present Lab.bench_env Lab.cfg (Lab.bench answers) = true.
Proof. vm_compute. reflexivity. Defined.

Lemma reachable_connected :
  @connected (fst (@answer1 Lab.bench_env Lab.cfg Lab.reachable)).
Proof.
  split; [reflexivity |].
  unfold Text.occurs. apply contains_spec. vm_compute. reflexivity.
Defined.

Lemma silent_not_connected :
  ~ Text.occurs "Version:" (stdout (fst (@answer1 Lab.bench_env Lab.cfg Lab.silent))).
Proof.
  unfold Text.occurs. rewrite <- contains_spec. vm_compute. discriminate.
Defined.

(** The appliance answers the three sessions: exit code 0. *)
Lemma main_exit_code_witness :
  @path_exists Lab.bench_env (cert_file Lab.cfg) Lab.reachable = true
  /\ @path_exists Lab.bench_env (key_file Lab.cfg) Lab.reachable = true
  /\ fst (@run Lab.bench_env Lab.cfg Lab.reachable) = 0%Z.
Proof.
  split; [vm_compute; reflexivity | split; [vm_compute; reflexivity |]].
  apply (@main_exit_code Lab.bench_env Lab.cfg Lab.reachable).
  - vm_compute; reflexivity.
  - vm_compute; reflexivity.
  - exact reachable_connected.
  - reflexivity.
  - reflexivity.
Defined.

(** The session ends with code 0 but never shows the banner: the
    connectivity test fails. *)
Lemma connectivity_test_fails_iff_witness :
  @files_present Lab.bench_env Lab.cfg Lab.silent = true
  /\ In msg_connect_failed (printed (snd (@run Lab.bench_env Lab.cfg Lab.silent)))
  /\ fst (@run Lab.bench_env Lab.cfg Lab.silent) = 1%Z.
Proof.
  split; [exact (bench_files_present _) |].
  apply (@connectivity_test_fails_iff Lab.bench_env Lab.cfg Lab.silent).
  - exact (bench_files_present _).
  - right. exact silent_not_connected.
Defined.




(** Nothing raises and the appliance answers the three sessions: exit
    code 0. *)
Lemma main_exit_code_or_exception_witness :
  @path_exists Lab.bench_env (cert_file Lab.cfg) Lab.reachable = true
  /\ @path_exists Lab.bench_env (key_file Lab.cfg) Lab.reachable = true
  /\ ~ @InstallCertSshRaising.raised Lab.bench_env Lab.no_faults Lab.cfg Lab.reachable
  /\ fst (@InstallCertSshRaising.run Lab.bench_env Lab.no_faults Lab.cfg Lab.reachable)
     = 0%Z.
Proof.
  assert (Hquiet : ~ @InstallCertSshRaising.raised Lab.bench_env Lab.no_faults
                       Lab.cfg Lab.reachable).
  { intros [e He]. vm_compute in He. discriminate He. }
  split; [vm_compute; reflexivity | split; [vm_compute; reflexivity |]].
  split; [exact Hquiet |].
  apply (@main_exit_code_or_exception Lab.bench_env Lab.no_faults Lab.cfg Lab.reachable).
  - vm_compute; reflexivity.
  - vm_compute; reflexivity.
  - exact reachable_connected.
  - reflexivity.
  - reflexivity.
  - exact Hquiet.
Defined.

(** C3, as worded, fails: the two files are there, the appliance would
    pass the connectivity test and the two installation steps, no session
    is started and no failure is reported, and the process exits with
    code 1, not 0: the certificate path is a directory and [open]
    raises. *)
Lemma unreadable_certificate_exits_1 :
  @path_exists Lab.bench_env (cert_file Lab.cfg) Lab.reachable = true
  /\ @path_exists Lab.bench_env (key_file Lab.cfg) Lab.reachable = true
  /\ @connected (fst (@answer1 Lab.bench_env Lab.cfg Lab.reachable))
  /\ @succeeded (fst (@answer2 Lab.bench_env Lab.cfg Lab.reachable))
  /\ @succeeded (fst (@answer3 Lab.bench_env Lab.cfg Lab.reachable))
  /\ snd (@InstallCertSshRaising.run Lab.bench_env Lab.cert_is_directory
            Lab.cfg Lab.reachable)
     = @InstallCertSshRaising.before_reading Lab.bench_env Lab.cfg Lab.reachable
  /\ fst (@InstallCertSshRaising.run Lab.bench_env Lab.cert_is_directory
            Lab.cfg Lab.reachable) = 1%Z
  /\ fst (@InstallCertSshRaising.run Lab.bench_env Lab.cert_is_directory
            Lab.cfg Lab.reachable) <> 0%Z.
Proof.
  split; [vm_compute; reflexivity | split; [vm_compute; reflexivity |]].
  split; [exact reachable_connected |].
  split; [reflexivity | split; [reflexivity |]].
  split; [vm_compute; reflexivity |].
  split; [vm_compute; reflexivity | vm_compute; discriminate].
Qed.

End InstallCertSshRuns.

(** ** Script 2 *)

Section VssToSvgFacts.
Import Proc VssToSvg.
Context `{Env}.

Lemma find_vss_files_from (files acc : list string) :
  fold_left (fun (vss_files : list string) file =>
               if is_vss file then (vss_files ++ [file])%list else vss_files)
            files acc
  = (acc ++ List.filter is_vss files)%list.
Proof.
  revert acc; induction files as [|f files IH]; intros acc; cbn [fold_left List.filter].
  - now rewrite app_nil_r.
  - rewrite IH. destruct (is_vss f); [now rewrite <- app_assoc | reflexivity].
Qed.

(** The first loop keeps the names that pass the test, in the order of
    the listing. *)
Lemma find_vss_files_filter (files : list string) :
  find_vss_files files = List.filter is_vss files.
Proof. unfold find_vss_files. now rewrite find_vss_files_from. Qed.

(** One call of [convert_vss_to_svg]. *)
Lemma convert_run (input_path output_path : string) (st : State) :
  exists lines evs,
    convert_vss_to_svg input_path output_path st
    = (Ret (no_exception (fst (attempt input_path output_path (world st)))),
       {| world := snd (attempt input_path output_path (world st));
          printed := printed st ++ lines;
          calls := calls st ++ Convert input_path output_path :: evs |})
    /\ List.filter is_convert evs = []
    /\ match fst (attempt input_path output_path (world st)) with
       | Some e => In (msg_error input_path e) lines
       | None => In (msg_success input_path output_path) lines
                 /\ evs = [Load input_path; Save output_path SVG]
       end.
Proof.
  cbv [convert_vss_to_svg bind called print Diagram save ret attempt
       world printed calls].
  destruct (Diagram_new input_path (let (w, _, _) := st in w)) as [[e | d] w1];
    cbv beta iota;
    [| destruct (Diagram_save d output_path SVG w1) as [[e |] w2]; cbv beta iota ];
    rewrite <- ?app_assoc; cbn [app fst snd no_exception];
    eexists _, _; (split; [reflexivity |]); (split; [reflexivity |]);
    cbn [In]; auto.
Qed.

Lemma converted_cons (o : option string) (l : list (option string)) :
  converted (o :: l) = if no_exception o then S (converted l) else converted l.
Proof. unfold converted. cbn [List.filter]. now destruct (no_exception o). Qed.

(** The second loop: every file is attempted, whatever became of the
    files before it. *)
Lemma convert_each_run (input_dir output_dir : string) (vss_files : list string) :
  forall (n : nat) (st : State),
  exists lines evs,
    convert_each input_dir output_dir vss_files n st
    = (Ret (n + converted (attempts input_dir output_dir vss_files (world st))),
       {| world := world_after input_dir output_dir vss_files (world st);
          printed := printed st ++ lines;
          calls := calls st ++ evs |})
    /\ List.filter is_convert evs
       = map (fun f => Convert (input_path_of input_dir f) (output_path_of output_dir f))
             vss_files
    /\ (forall i f e,
          vss_files !! i = Some f ->
          attempts input_dir output_dir vss_files (world st) !! i = Some (Some e) ->
          In (msg_error (input_path_of input_dir f) e) lines).
Proof.
  induction vss_files as [|f rest IH]; intros n st.
  - exists [], []. cbn [convert_each attempts world_after map List.filter].
    unfold ret, converted. cbn [List.filter List.length].
    rewrite !app_nil_r, Nat.add_0_r. destruct st; cbn [world printed calls].
    repeat split. intros i f e Hf. now rewrite lookup_nil in Hf.
  - destruct (convert_run (input_path_of input_dir f) (output_path_of output_dir f) st)
      as [l1 [e1 [E1 [F1 M1]]]].
    cbn [convert_each attempts world_after]. unfold bind.
    change (Py.join input_dir f) with (input_path_of input_dir f).
    change (Py.join output_dir (output_file_of f)) with (output_path_of output_dir f).
    rewrite E1. clear E1.
    destruct (attempt (input_path_of input_dir f) (output_path_of output_dir f) (world st))
      as [o w1].
    cbn [fst snd] in *.
    match goal with
    | |- context [convert_each _ _ rest ?m ?st1] =>
        destruct (IH m st1) as [l2 [e2 [E2 [F2 M2]]]]
    end.
    cbn [world printed calls] in *.
    exists (l1 ++ l2)%list, (Convert (input_path_of input_dir f) (output_path_of output_dir f)
                             :: e1 ++ e2)%list.
    rewrite E2, converted_cons. split; [| split].
    + f_equal; [| f_equal].
      * f_equal. destruct (no_exception o); lia.
      * now rewrite <- app_assoc.
      * now rewrite <- app_assoc.
    + cbn [List.filter is_convert map]. now rewrite List.filter_app, F1, F2.
    + intros [|i] g e Hg Ho; cbn in Hg, Ho.
      * injection Hg as <-. injection Ho as ->. apply in_or_app. now left.
      * apply in_or_app. right. now apply (M2 i).
Qed.

(** A batch run. *)
Lemma batch_run (input_dir output_dir : string) (w : World) :
  match selected input_dir output_dir w with
  | [] =>
      batch input_dir output_dir w
      = (Ret tt, {| world := makedirs output_dir w;
                    printed := [msg_none_found input_dir];
                    calls := [] |})
  | _ :: _ =>
      exists lines evs,
        batch input_dir output_dir w
        = (Ret tt,
           {| world := world_after input_dir output_dir
                         (selected input_dir output_dir w) (makedirs output_dir w);
              printed := lines ++ [msg_summary (converted (outcomes input_dir output_dir w))
                                     (List.length (selected input_dir output_dir w))];
              calls := evs |})
        /\ List.filter is_convert evs
           = map (fun f => Convert (input_path_of input_dir f) (output_path_of output_dir f))
                 (selected input_dir output_dir w)
        /\ (forall i f e,
              selected input_dir output_dir w !! i = Some f ->
              outcomes input_dir output_dir w !! i = Some (Some e) ->
              In (msg_error (input_path_of input_dir f) e) lines)
  end.
Proof.
  unfold batch, batch_convert_directory, outcomes, selected, listing.
  cbv [bind os_makedirs os_listdir initial world printed calls].
  rewrite find_vss_files_filter.
  destruct (List.filter is_vss (listdir input_dir (makedirs output_dir w)))
    as [|f rest] eqn:Hsel.
  - reflexivity.
  - cbv [print world printed calls]. 
    match goal with
    | |- context [convert_each _ _ (f :: rest) 0 ?st1] =>
        destruct (convert_each_run input_dir output_dir (f :: rest) 0 st1)
          as [lines [evs [E [F M]]]]
    end.
    rewrite E. cbn [world printed calls Nat.add] in *.
    eexists _, evs. split; [reflexivity | split; [exact F |]].
    intros i g e Hg Ho. apply in_or_app. right. now apply (M i).
Qed.



(** What the statements below read off a batch run. *)
Lemma batch_facts (input_dir output_dir : string) (w : World) :
  fst (batch input_dir output_dir w) = Ret tt
  /\ conversions (snd (batch input_dir output_dir w))
     = map (fun f => Convert (input_path_of input_dir f) (output_path_of output_dir f))
           (selected input_dir output_dir w)
  /\ (forall i f e,
        selected input_dir output_dir w !! i = Some f ->
        outcomes input_dir output_dir w !! i = Some (Some e) ->
        In (msg_error (input_path_of input_dir f) e)
           (printed (snd (batch input_dir output_dir w))))
  /\ match selected input_dir output_dir w with
     | [] => printed (snd (batch input_dir output_dir w)) = [msg_none_found input_dir]
             /\ calls (snd (batch input_dir output_dir w)) = []
     | _ :: _ =>
         last (printed (snd (batch input_dir output_dir w)))
         = Some (msg_summary (converted (outcomes input_dir output_dir w))
                   (List.length (selected input_dir output_dir w)))
     end.
Proof.
  pose proof (batch_run input_dir output_dir w) as Hrun. unfold conversions.
  destruct (selected input_dir output_dir w) as [|f rest] eqn:Hsel.
  - rewrite Hrun. cbn [fst snd printed calls List.filter map]. repeat split.
    intros i g e Hg. now rewrite lookup_nil in Hg.
  - destruct Hrun as [lines [evs [-> [F M]]]]. cbn [fst snd printed calls].
    repeat split; [exact F | | apply last_snoc].
    intros i g e Hg Ho. apply in_or_app. left. now apply (M i).
Qed.



(** C10, as amended. A name of the listing is selected exactly when it
    ends, whatever the case of its letters, with [.vss]; the conversion of
    a selected name is called with the name joined to the input directory
    and, joined to the output directory, the name with [.svg] in place of
    the extension [os.path.splitext] finds: the final four characters,
    or nothing when only dots precede them, and then the whole name is
    kept and [.svg] appended. *)
Theorem selection_and_output_names :
  (forall (files : list string) (name : string),
      In name (find_vss_files files)
      <-> In name files
          /\ exists stem ext, name = stem +:+ ext /\ Py.lower ext = ".vss")
  /\ (forall input_dir output_dir w,
        conversions (snd (batch input_dir output_dir w))
        = map (fun name =>
                 Convert (Py.join input_dir name)
                         (Py.join output_dir (fst (Py.splitext name) +:+ ".svg")))
              (find_vss_files (listing input_dir output_dir w)))
  /\ (forall stem ext,
        Py.lower ext = ".vss" ->
        Text.has_char "/"%char (stem +:+ ext) = false ->
        fst (Py.splitext (stem +:+ ext)) +:+ ".svg"
        = (if Text.only_dots stem then stem +:+ ext else stem) +:+ ".svg").
Proof.
  split; [| split].
  - intros files name.
    now rewrite find_vss_files_filter, List.filter_In, is_vss_spec.
  - intros input_dir output_dir w. rewrite find_vss_files_filter.
    apply (batch_facts input_dir output_dir w).
  - intros stem ext Hext Hsep. rewrite (splitext_vss stem ext Hext Hsep).
    now destruct (Text.only_dots stem).
Qed.

(** A run of the single-file form. *)
Lemma single_run (prog input_file output_file : string) (w : World) :
  if path_exists input_file w
  then exists lines evs,
      run [prog; input_file; output_file] w
      = (0%Z, {| world := snd (attempt input_file output_file w);
                 printed := lines;
                 calls := Convert input_file output_file :: evs |})
      /\ List.filter is_convert evs = []
      /\ match fst (attempt input_file output_file w) with
         | Some e => In (msg_error input_file e) lines
         | None => In (msg_success input_file output_file) lines
                   /\ evs = [Load input_file; Save output_file SVG]
         end
  else run [prog; input_file; output_file] w
       = (1%Z, {| world := w;
                  printed := ["❌ Input file not found: " +:+ input_file];
                  calls := [] |}).
Proof.
  cbv [run main bind os_path_exists initial world printed calls].
  destruct (path_exists input_file w); cbv [negb print sys_exit ret exit_code];
    [| reflexivity].
  match goal with
  | |- context [convert_vss_to_svg input_file output_file ?st1] =>
      destruct (convert_run input_file output_file st1) as [lines [evs [E [F M]]]]
  end.
  rewrite E. cbn [world printed calls app] in *.
  exists lines, evs. now repeat split.
Qed.

(** C2. In the single-file form, a run whose input path does not exist
    exits with code 1 and calls neither the conversion nor the SDK; a run
    whose input the SDK loads and saves without an exception exits with
    code 0 after one load of the input path and one save, to exactly the
    output path of the command line, which leaves the world the SDK's
    save made -- with a file at that path, when a save that returns has
    created its file. *)
Theorem single_file_missing_or_saved (prog input_file output_file : string) (w : World) :
  (path_exists input_file w = false ->
   fst (run [prog; input_file; output_file] w) = 1%Z
   /\ calls (snd (run [prog; input_file; output_file] w)) = []
   /\ world (snd (run [prog; input_file; output_file] w)) = w)
  /\ (path_exists input_file w = true ->
      fst (attempt input_file output_file w) = None ->
      fst (run [prog; input_file; output_file] w) = 0%Z
      /\ calls (snd (run [prog; input_file; output_file] w))
         = [Convert input_file output_file; Load input_file; Save output_file SVG]
      /\ world (snd (run [prog; input_file; output_file] w))
         = snd (attempt input_file output_file w)
      /\ In (msg_success input_file output_file)
            (printed (snd (run [prog; input_file; output_file] w)))
      /\ ((forall d path w1 w2,
              Diagram_save d path SVG w1 = (None, w2) -> path_exists path w2 = true) ->
          path_exists output_file
            (world (snd (run [prog; input_file; output_file] w))) = true)).
Proof.
  pose proof (single_run prog input_file output_file w) as Hrun.
  split; intros Hthere; rewrite Hthere in Hrun.
  - rewrite Hrun. now repeat split.
  - intros Hok. destruct Hrun as [lines [evs [-> [_ M]]]].
    rewrite Hok in M. destruct M as [Hmsg ->]. cbn [fst snd world printed calls].
    repeat split; try assumption.
    intros Hsave. unfold attempt in *.
    destruct (Diagram_new input_file w) as [[e | d] w1]; [discriminate Hok |].
    destruct (Diagram_save d output_file SVG w1) as [o w2] eqn:Esave.
    cbn [fst snd] in *. subst o. exact (Hsave _ _ _ _ Esave).
Qed.


End VssToSvgFacts.

(** *** The SDK as a function of the content of its input *)

Section PureSdk.
Import Proc VssToSvg.
Variable D : Type.
Variable parse : string -> string + D.
Variable render : D -> string + string.

Lemma attempt_on_disk (input_path output_path : string) (w : Lab.Disk) :
  @attempt (Lab.disk_env D parse render) input_path output_path w
  = match Lab.files w !! input_path with
    | None => (Some ("File not found: " +:+ input_path), w)
    | Some content =>
        match Lab.svg_of D parse render content with
        | inl e => (Some e, w)
        | inr svg =>
            (None, {| Lab.files := <[ output_path := svg ]> (Lab.files w);
                      Lab.dirs := Lab.dirs w |})
        end
    end.
Proof.
  unfold attempt, Lab.svg_of.
  cbn [Diagram_new Diagram_save Lab.disk_env].
  destruct (Lab.files w !! input_path) as [content |]; [| reflexivity].
  destruct (parse content) as [e | d]; [reflexivity |].
  now destruct (render d).
Qed.

Lemma convert_on_disk (input_path output_path : string) (w : Lab.Disk) :
  Lab.convert_on D parse render input_path output_path w
  = (Ret (no_exception
            (fst (@attempt (Lab.disk_env D parse render) input_path output_path w))),
     snd (@attempt (Lab.disk_env D parse render) input_path output_path w)).
Proof.
  unfold Lab.convert_on.
  destruct (@convert_run (Lab.disk_env D parse render) input_path output_path
              (@initial (Lab.disk_env D parse render) w)) as [lines [evs [E _]]].
  now rewrite E.
Qed.

(** C8. With an SDK that is a function of the content of the file it
    loads, a conversion is a function of that content.  On every disk
    that holds [content] at the input path: when the SDK gives the SVG
    [svg] for [content], the conversion returns [True] and leaves [svg]
    at the output path, byte for byte the same on the two disks, and
    nothing else of the disk is changed; when the SDK refuses [content],
    the conversion returns [False] and leaves the disk as it is; run
    again on the disk it left, with an output path other than the input
    path, the conversion returns the same and leaves that disk as it
    is. *)
Theorem conversion_is_function_of_content
    (input_path output_path content : string) (w1 w2 : Lab.Disk) :
  Lab.files w1 !! input_path = Some content ->
  Lab.files w2 !! input_path = Some content ->
  (forall svg,
     Lab.svg_of D parse render content = inr svg ->
     Lab.convert_on D parse render input_path output_path w1
     = (Ret true, {| Lab.files := <[ output_path := svg ]> (Lab.files w1);
                     Lab.dirs := Lab.dirs w1 |})
     /\ Lab.convert_on D parse render input_path output_path w2
        = (Ret true, {| Lab.files := <[ output_path := svg ]> (Lab.files w2);
                        Lab.dirs := Lab.dirs w2 |})
     /\ Lab.files (snd (Lab.convert_on D parse render input_path output_path w1))
          !! output_path = Some svg
     /\ Lab.files (snd (Lab.convert_on D parse render input_path output_path w2))
          !! output_path = Some svg)
  /\ (forall e,
       Lab.svg_of D parse render content = inl e ->
       Lab.convert_on D parse render input_path output_path w1 = (Ret false, w1)
       /\ Lab.convert_on D parse render input_path output_path w2 = (Ret false, w2))
  /\ (input_path <> output_path ->
      Lab.convert_on D parse render input_path output_path
        (snd (Lab.convert_on D parse render input_path output_path w1))
      = Lab.convert_on D parse render input_path output_path w1).
Proof.
  intros Hin1 Hin2.
  rewrite !convert_on_disk. cbn [fst snd]. rewrite !attempt_on_disk, Hin1, Hin2.
  split; [| split].
  - intros svg ->. cbn [fst snd no_exception Lab.files].
    rewrite !lookup_insert_eq. repeat split; reflexivity.
  - intros e ->. cbn [fst snd no_exception]. split; reflexivity.
  - intros Hne.
    destruct (Lab.svg_of D parse render content) as [e | svg] eqn:Hsvg;
      cbn [fst snd no_exception Lab.files Lab.dirs].
    + now rewrite Hin1, Hsvg.
    + rewrite lookup_insert_ne by congruence. rewrite Hin1, Hsvg.
      cbn [fst snd no_exception Lab.files Lab.dirs]. now rewrite insert_insert_eq.
Qed.

End PureSdk.

(** *** Script 2 on the stand-in SDK *)

Section VssToSvgRuns.
Import Proc VssToSvg.

Lemma toy_save_creates (d path : string) (w1 w2 : Lab.Disk) :
  @Diagram_save Lab.toy_env d path SVG w1 = (None, w2) ->
  @path_exists Lab.toy_env path w2 = true.
Proof.
  cbn. intros Hsave. injection Hsave as <-. cbn.
  rewrite lookup_insert_eq. reflexivity.
Defined.


(** A path that is not there, and a stencil that is. *)
Lemma single_file_missing_or_saved_witness :
  (@path_exists Lab.toy_env "in/none.vss" Lab.stencils = false
   /\ fst (@run Lab.toy_env ["prog"; "in/none.vss"; "out/none.svg"] Lab.stencils) = 1%Z
   /\ calls (snd (@run Lab.toy_env ["prog"; "in/none.vss"; "out/none.svg"] Lab.stencils)) = [])
  /\ (@path_exists Lab.toy_env "in/ap.vss" Lab.stencils = true
      /\ fst (@attempt Lab.toy_env "in/ap.vss" "out/ap.svg" Lab.stencils) = None
      /\ fst (@run Lab.toy_env ["prog"; "in/ap.vss"; "out/ap.svg"] Lab.stencils) = 0%Z
      /\ @path_exists Lab.toy_env "out/ap.svg"
           (world (snd (@run Lab.toy_env ["prog"; "in/ap.vss"; "out/ap.svg"] Lab.stencils)))
         = true).
Proof.
  split.
  - split; [vm_compute; reflexivity |].
    destruct (@single_file_missing_or_saved Lab.toy_env "prog" "in/none.vss" "out/none.svg"
                Lab.stencils) as [Hmissing _].
    destruct Hmissing as [Hcode [Hcalls _]]; [vm_compute; reflexivity |].
    split; [exact Hcode | exact Hcalls].
  - split; [vm_compute; reflexivity | split; [vm_compute; reflexivity |]].
    destruct (@single_file_missing_or_saved Lab.toy_env "prog" "in/ap.vss" "out/ap.svg"
                Lab.stencils) as [_ Hsaved].
    destruct Hsaved as [Hcode [_ [_ [_ Hfile]]]];
      [vm_compute; reflexivity | vm_compute; reflexivity |].
    split; [exact Hcode | exact (Hfile toy_save_creates)].
Defined.



(** A name in capitals and a hidden file. *)
Lemma selection_and_output_names_witness :
  Py.lower ".VSS" = ".vss"
  /\ Text.has_char "/"%char "Switch.VSS" = false
  /\ fst (Py.splitext "Switch.VSS") +:+ ".svg" = "Switch.svg"
  /\ fst (Py.splitext "..vss") +:+ ".svg" = "..vss.svg".
Proof.
  destruct (@selection_and_output_names Lab.toy_env) as [_ [_ Hname]].
  split; [reflexivity | split; [reflexivity | split]].
  - apply (Hname "Switch" ".VSS"); reflexivity.
  - apply (Hname "." ".vss"); reflexivity.
Defined.

(** C10, as worded, fails: the hidden file [.vss] is selected, the four
    characters of its name are the extension the selection matched, and
    the output name is not the name with them replaced by [.svg], which
    is [.svg]: the name is kept whole and [.svg] is appended. *)
Lemma batch_keeps_whole_hidden_name :
  find_vss_files (@listing Lab.toy_env "in" "out" Lab.hidden) = [".vss"]
  /\ with_svg_extension ".vss" = ".svg"
  /\ conversions (snd (@batch Lab.toy_env "in" "out" Lab.hidden))
     = [Convert "in/.vss" "out/.vss.svg"]
  /\ conversions (snd (@batch Lab.toy_env "in" "out" Lab.hidden))
     <> [Convert "in/.vss" (Py.join "out" (with_svg_extension ".vss"))]
  /\ Lab.files (@world Lab.toy_env (snd (@batch Lab.toy_env "in" "out" Lab.hidden)))
       !! "out/.svg" = None.
Proof.
  split; [vm_compute; reflexivity |].
  split; [vm_compute; reflexivity |].
  split; [vm_compute; reflexivity |].
  split; [vm_compute; discriminate | vm_compute; reflexivity].
Qed.

(** The same stencil on two disks: both runs return [True] and leave
    the same SVG at the output path. *)
Lemma conversion_is_function_of_content_witness :
  Lab.files Lab.stencils !! "in/ap.vss" = Some "VSS access point"
  /\ Lab.files Lab.one_stencil !! "in/ap.vss" = Some "VSS access point"
  /\ Lab.svg_of string Lab.toy_parse Lab.toy_render "VSS access point"
     = inr "<svg>VSS access point</svg>"
  /\ fst (Lab.toy_convert_on "in/ap.vss" "out/ap.svg" Lab.stencils) = Ret true
  /\ fst (Lab.toy_convert_on "in/ap.vss" "out/ap.svg" Lab.one_stencil) = Ret true
  /\ Lab.files (snd (Lab.toy_convert_on "in/ap.vss" "out/ap.svg" Lab.stencils))
       !! "out/ap.svg" = Some "<svg>VSS access point</svg>"
  /\ Lab.files (snd (Lab.toy_convert_on "in/ap.vss" "out/ap.svg" Lab.one_stencil))
       !! "out/ap.svg" = Some "<svg>VSS access point</svg>"
  /\ Lab.toy_convert_on "in/ap.vss" "out/ap.svg"
       (snd (Lab.toy_convert_on "in/ap.vss" "out/ap.svg" Lab.stencils))
     = Lab.toy_convert_on "in/ap.vss" "out/ap.svg" Lab.stencils.
Proof.
  assert (Hin1 : Lab.files Lab.stencils !! "in/ap.vss" = Some "VSS access point")
    by (vm_compute; reflexivity).
  assert (Hin2 : Lab.files Lab.one_stencil !! "in/ap.vss" = Some "VSS access point")
    by (vm_compute; reflexivity).
  assert (Hsvg : Lab.svg_of string Lab.toy_parse Lab.toy_render "VSS access point"
                 = inr "<svg>VSS access point</svg>")
    by (vm_compute; reflexivity).
  destruct (conversion_is_function_of_content string Lab.toy_parse Lab.toy_render
              "in/ap.vss" "out/ap.svg" "VSS access point"
              Lab.stencils Lab.one_stencil Hin1 Hin2)
    as [Hmade [_ Hagain]].
  destruct (Hmade _ Hsvg) as [Hrun1 [Hrun2 [Hout1 Hout2]]].
  unfold Lab.toy_convert_on.
  split; [exact Hin1 | split; [exact Hin2 | split; [exact Hsvg |]]].
  split; [now rewrite Hrun1 | split; [now rewrite Hrun2 |]].
  split; [exact Hout1 | split; [exact Hout2 |]].
  apply Hagain. discriminate.
Defined.

End VssToSvgRuns.

(** * Further properties of the two scripts *)

(** ** Script 2: one conversion and the dispatch *)

Section VssToSvgMore.
Import Proc VssToSvg.
Context `{Env}.

(** One call of [convert_vss_to_svg], line by line and call by call. *)
Lemma convert_exact (input_path output_path : string) (st : State) :
  convert_vss_to_svg input_path output_path st
  = match Diagram_new input_path (world st) with
    | (inl e, w1) =>
        (Ret false,
         {| world := w1;
            printed := printed st
                       ++ ["Loading VSS file: " +:+ input_path;
                           msg_error input_path e];
            calls := calls st ++ [Convert input_path output_path; Load input_path] |})
    | (inr d, w1) =>
        match Diagram_save d output_path SVG w1 with
        | (Some e, w2) =>
            (Ret false,
             {| world := w2;
                printed := printed st
                           ++ ["Loading VSS file: " +:+ input_path;
                               "Converting to SVG: " +:+ output_path;
                               msg_error input_path e];
                calls := calls st
                         ++ [Convert input_path output_path; Load input_path;
                             Save output_path SVG] |})
        | (None, w2) =>
            (Ret true,
             {| world := w2;
                printed := printed st
                           ++ ["Loading VSS file: " +:+ input_path;
                               "Converting to SVG: " +:+ output_path;
                               msg_success input_path output_path];
                calls := calls st
                         ++ [Convert input_path output_path; Load input_path;
                             Save output_path SVG] |})
        end
    end.
Proof.
  cbv [convert_vss_to_svg bind called print Diagram save ret world printed calls].
  destruct (Diagram_new input_path (let (w, _, _) := st in w)) as [[e | d] w1];
    cbv beta iota;
    [| destruct (Diagram_save d output_path SVG w1) as [[e |] w2]; cbv beta iota ];
    rewrite <- ?app_assoc; reflexivity.
Qed.

Ltac other_line H :=
  cbv [msg_error msg_success] in H; cbn [String.append] in H; discriminate H.

(** X1. A conversion prints exactly one verdict, and prints it last:
    what it prints is one or two lines of progress, none of them a
    verdict, and then one line that is the success line when it returns
    [True] and only then, an error line when it returns [False] and only
    then; it returns one of the two. *)
Theorem conversion_prints_one_verdict (input_path output_path : string) (st : State) :
  exists (progress : list string) (verdict : string),
    printed (snd (convert_vss_to_svg input_path output_path st))
    = (printed st ++ progress ++ [verdict])%list
    /\ List.filter is_verdict (progress ++ [verdict])%list = [verdict]
    /\ (progress = ["Loading VSS file: " +:+ input_path]
        \/ progress = ["Loading VSS file: " +:+ input_path;
                       "Converting to SVG: " +:+ output_path])
    /\ (fst (convert_vss_to_svg input_path output_path st) = Ret true
        <-> verdict = msg_success input_path output_path)
    /\ (fst (convert_vss_to_svg input_path output_path st) = Ret false
        <-> exists e, verdict = msg_error input_path e)
    /\ (fst (convert_vss_to_svg input_path output_path st) = Ret true
        \/ fst (convert_vss_to_svg input_path output_path st) = Ret false).
Proof.
  rewrite convert_exact.
  destruct (Diagram_new input_path (world st)) as [[e | d] w1];
    [| destruct (Diagram_save d output_path SVG w1) as [[e |] w2]];
    cbn [fst snd printed].
  - exists ["Loading VSS file: " +:+ input_path], (msg_error input_path e).
    split; [reflexivity | split; [reflexivity | split; [now left |]]].
    split; [| split; [| now right]].
    + split; [discriminate | intros E; other_line E].
    + split; [intros _; now exists e | reflexivity].
  - exists ["Loading VSS file: " +:+ input_path; "Converting to SVG: " +:+ output_path],
           (msg_error input_path e).
    split; [reflexivity | split; [reflexivity | split; [now right |]]].
    split; [| split; [| now right]].
    + split; [discriminate | intros E; other_line E].
    + split; [intros _; now exists e | reflexivity].
  - exists ["Loading VSS file: " +:+ input_path; "Converting to SVG: " +:+ output_path],
           (msg_success input_path output_path).
    split; [reflexivity | split; [reflexivity | split; [now right |]]].
    split; [| split; [| now left]].
    + split; reflexivity.
    + split; [discriminate | intros [e' E]; other_line E].
Qed.

(** X2. A conversion asks the SDK for one load of the input path, first;
    it asks for a save, of the output path and as SVG, exactly when the
    load returned; after a load that raised nothing is saved and the
    world is the one the load left. *)
Theorem conversion_call_discipline (input_path output_path : string) (st : State) :
  calls (snd (convert_vss_to_svg input_path output_path st))
  = (calls st
     ++ Convert input_path output_path
     :: Load input_path
     :: match fst (Diagram_new input_path (world st)) with
        | inl _ => []
        | inr _ => [Save output_path SVG]
        end)%list
  /\ (forall e, fst (Diagram_new input_path (world st)) = inl e ->
      world (snd (convert_vss_to_svg input_path output_path st))
      = snd (Diagram_new input_path (world st))
      /\ fst (convert_vss_to_svg input_path output_path st) = Ret false).
Proof.
  rewrite convert_exact.
  destruct (Diagram_new input_path (world st)) as [[e | d] w1];
    [| destruct (Diagram_save d output_path SVG w1) as [[e |] w2]];
    cbn [fst snd calls world]; split; try reflexivity;
    intros e' He'; try discriminate He'; now split.
Qed.

(** X3. Any argument list that is neither [input output] nor
    [--batch input_dir output_dir] gets the usage text and exit code 1;
    nothing is converted and the world is left as it was. *)
Theorem other_arguments_print_usage (argv : list string) (w : World) :
  List.length argv <> 3 ->
  (List.length argv = 4 -> argv !! 1 <> Some "--batch") ->
  run argv w = (1%Z, {| world := w; printed := usage_lines; calls := [] |}).
Proof.
  intros H3 H4.
  destruct argv as [|a [|b [|c [|d [|e rest]]]]]; cbn [List.length] in *;
    try reflexivity; try (exfalso; lia).
  cbv [run main usage bind print sys_exit initial world printed calls exit_code].
  destruct (String.eqb_spec b "--batch") as [-> | Hb]; [| reflexivity].
  exfalso. now apply H4.
Qed.

(** X4. In batch mode an input directory that is not a directory stops
    the run with exit code 1 before anything is done: the output
    directory is not made and nothing is listed or converted. *)
Theorem batch_mode_without_directory (prog input_dir output_dir : string) (w : World) :
  path_isdir input_dir w = false ->
  run [prog; "--batch"; input_dir; output_dir] w
  = (1%Z, {| world := w;
             printed := ["❌ Input directory not found: " +:+ input_dir];
             calls := [] |}).
Proof.
  intros Hdir.
  cbv [run main bind os_path_isdir print sys_exit initial world printed calls exit_code].
  cbn [String.eqb Ascii.eqb Bool.eqb]. now rewrite Hdir.
Qed.

End VssToSvgMore.

(** ** Script 2: the paths of a batch *)

Section PathFacts.
Import VssToSvg.

Lemma join_suffix (a b : string) : exists x, Py.join a b = x +:+ b.
Proof.
  unfold Py.join. destruct (Py.startswith b "/").
  - now exists EmptyString.
  - destruct (String.eqb a EmptyString || Py.endswith a "/").
    + now exists a.
    + exists (a +:+ "/"). now rewrite str_app_assoc.
Qed.

Lemma endswith_same_length (s a b : string) :
  Py.endswith s a = true -> Py.endswith s b = true ->
  String.length a = String.length b -> a = b.
Proof.
  unfold Py.endswith. rewrite !andb_true_iff, !String.eqb_eq.
  intros [_ Ha] [_ Hb] Hlen. rewrite <- Ha, <- Hb. now rewrite Hlen.
Qed.

Lemma has_char_app (c : ascii) (a b : string) :
  Text.has_char c (a +:+ b) = Text.has_char c a || Text.has_char c b.
Proof.
  induction a as [|x a IH]; cbn [String.append Text.has_char]; [reflexivity |].
  now rewrite IH, orb_assoc.
Qed.

Lemma has_char_take (c : ascii) (n : nat) (s : string) :
  Text.has_char c s = false -> Text.has_char c (Py.take n s) = false.
Proof.
  revert s; induction n as [|n IH]; intros [|a s]; cbn [Py.take Text.has_char];
    try reflexivity.
  rewrite !orb_false_iff. intros [Ha Hs]. split; [exact Ha | now apply IH].
Qed.

Lemma has_char_drop (c : ascii) (n : nat) (s : string) :
  Text.has_char c s = false -> Text.has_char c (Py.drop n s) = false.
Proof.
  revert s; induction n as [|n IH]; intros [|a s]; cbn [Py.drop Text.has_char];
    try reflexivity; try (intros Hs; exact Hs).
  rewrite orb_false_iff. intros [_ Hs]. now apply IH.
Qed.

Lemma lower_char_slash (c : ascii) :
  Ascii.eqb (Py.lower_char c) "/"%char = Ascii.eqb c "/"%char.
Proof. destruct c as [[] [] [] [] [] [] [] []]; reflexivity. Qed.

Lemma has_slash_lower (s : string) :
  Text.has_char "/"%char (Py.lower s) = Text.has_char "/"%char s.
Proof.
  induction s as [|c s IH]; cbn [Py.lower Text.has_char]; [reflexivity |].
  now rewrite lower_char_slash, IH.
Qed.

Lemma startswith_absent (c : ascii) (s : string) :
  Text.has_char c s = false -> Py.startswith s (String c EmptyString) = false.
Proof.
  destruct s as [|a s]; cbn [Text.has_char Py.startswith]; [reflexivity |].
  rewrite orb_false_iff. intros [-> _]. reflexivity.
Qed.

Lemma splitext_root_cases (p : string) :
  fst (Py.splitext p) = p
  \/ fst (Py.splitext p) = Py.take (Z.to_nat (Py.rfind "."%char p)) p.
Proof.
  unfold Py.splitext.
  destruct (Py.rfind "/"%char p <? Py.rfind "."%char p)%Z; [| now left].
  destruct (Py.has_non_dot _ _ _); [now right | now left].
Qed.

Lemma loaded_path_ends_in_vss (input_dir f : string) :
  is_vss f = true ->
  Py.endswith (Py.lower (Py.join input_dir f)) ".vss" = true.
Proof.
  intros Hf. destruct (join_suffix input_dir f) as [x Hx].
  apply is_vss_spec in Hf. destruct Hf as [stem [ext [-> Hext]]].
  apply endswith_spec. exists (Py.lower (x +:+ stem)).
  now rewrite Hx, <- str_app_assoc, lower_app, Hext.
Qed.

Lemma saved_path_ends_in_svg (output_dir root : string) :
  Py.endswith (Py.lower (Py.join output_dir (root +:+ ".svg"))) ".svg" = true.
Proof.
  destruct (join_suffix output_dir (root +:+ ".svg")) as [y Hy].
  apply endswith_spec. exists (Py.lower (y +:+ root)).
  now rewrite Hy, <- str_app_assoc, lower_app.
Qed.

(** X6. In a batch, no selected file is ever the target of a save: the
    path a selected name is loaded from differs from the path any name
    is saved to, whatever the two directories. *)
Theorem batch_never_saves_over_an_input (input_dir output_dir f g : string) :
  is_vss f = true ->
  input_path_of input_dir f <> output_path_of output_dir g.
Proof.
  intros Hf Heq. unfold input_path_of, output_path_of in Heq.
  pose proof (loaded_path_ends_in_vss input_dir f Hf) as Hvss.
  pose proof (saved_path_ends_in_svg output_dir (fst (Py.splitext g))) as Hsvg.
  rewrite <- Heq in Hsvg.
  pose proof (endswith_same_length _ _ _ Hvss Hsvg eq_refl) as Habs.
  discriminate Habs.
Qed.

(** X7. Two names of one directory that differ only by the case of the
    letters of the extension are saved to the same path: the later
    conversion replaces the SVG of the earlier one. *)
Theorem names_differing_by_case_share_output (output_dir stem ext1 ext2 : string) :
  Py.lower ext1 = ".vss" -> Py.lower ext2 = ".vss" ->
  Text.has_char "/"%char stem = false -> Text.only_dots stem = false ->
  output_path_of output_dir (stem +:+ ext1) = Py.join output_dir (stem +:+ ".svg")
  /\ output_path_of output_dir (stem +:+ ext2) = Py.join output_dir (stem +:+ ".svg").
Proof.
  intros H1 H2 Hsep Hdots.
  assert (Hno : forall ext, Py.lower ext = ".vss" ->
                            Text.has_char "/"%char (stem +:+ ext) = false).
  { intros ext Hext. rewrite has_char_app, Hsep, <- has_slash_lower, Hext.
    reflexivity. }
  unfold output_path_of.
  rewrite (splitext_vss stem ext1 H1 (Hno _ H1)),
          (splitext_vss stem ext2 H2 (Hno _ H2)), Hdots.
  now split.
Qed.

(** X8. The SVG of a name that is a single path component is saved
    directly under the output directory: the path is the directory and
    the output name when the directory is empty or ends with a slash,
    the directory, one slash and the output name otherwise; and the
    output name has no slash and ends in [.svg]. *)
Theorem output_is_a_child_of_the_output_directory (output_dir f : string) :
  Text.has_char "/"%char f = false ->
  (output_dir = EmptyString \/ Py.endswith output_dir "/" = true ->
   output_path_of output_dir f = output_dir +:+ output_file_of f)
  /\ (output_dir <> EmptyString -> Py.endswith output_dir "/" = false ->
      output_path_of output_dir f = output_dir +:+ "/" +:+ output_file_of f)
  /\ Text.has_char "/"%char (output_file_of f) = false
  /\ Py.endswith (output_file_of f) ".svg" = true
  /\ Py.endswith (output_path_of output_dir f) ".svg" = true.
Proof.
  intros Hsep.
  assert (Hname : Text.has_char "/"%char (output_file_of f) = false).
  { unfold output_file_of. rewrite has_char_app, orb_false_r.
    destruct (splitext_root_cases f) as [-> | ->];
      [exact Hsep | now apply has_char_take]. }
  assert (Hjoin : output_path_of output_dir f
                  = if String.eqb output_dir EmptyString || Py.endswith output_dir "/"
                    then output_dir +:+ output_file_of f
                    else output_dir +:+ "/" +:+ output_file_of f).
  { unfold output_path_of, Py.join. fold (output_file_of f).
    now rewrite (startswith_absent _ _ Hname). }
  split; [| split; [| split; [exact Hname | split]]].
  - intros [-> | Hend]; rewrite Hjoin; [reflexivity |].
    rewrite Hend, orb_true_r. reflexivity.
  - intros Hne Hend. rewrite Hjoin, Hend, orb_false_r.
    destruct (String.eqb_spec output_dir EmptyString); [contradiction | reflexivity].
  - apply endswith_spec. now exists (fst (Py.splitext f)).
  - apply endswith_spec. destruct (join_suffix output_dir (output_file_of f)) as [x Hx].
    exists (x +:+ fst (Py.splitext f)). unfold output_path_of.
    fold (output_file_of f). rewrite Hx. unfold output_file_of.
    now rewrite str_app_assoc.
Qed.

End PathFacts.

(** ** Script 2: what the output name keeps of the input name *)

Section ExtensionFacts.
Import VssToSvg.

Lemma rfind_from_spec (c : ascii) (s : string) :
  forall i last,
    (Py.rfind_from c s i last = last /\ Text.has_char c s = false)
    \/ (exists pre post,
          s = pre +:+ String c post
          /\ Text.has_char c post = false
          /\ Py.rfind_from c s i last = (i + Z.of_nat (String.length pre))%Z).
Proof.
  induction s as [|a s IH]; intros i last; cbn [Py.rfind_from Text.has_char].
  - now left.
  - destruct (IH (i + 1)%Z (if Ascii.eqb a c then i else last))
      as [[Hr Hs] | [pre [post [-> [Hpost Hr]]]]].
    + destruct (Ascii.eqb_spec a c) as [-> | Hac].
      * right. exists EmptyString, s. cbn [String.append String.length].
        repeat split; [exact Hs | rewrite Hr; lia].
      * left. now rewrite Hr, Hs.
    + right. exists (String a pre), post. cbn [String.append String.length].
      repeat split; [exact Hpost | rewrite Hr; lia].
Qed.

Lemma drop_app_le (k : nat) (a b : string) :
  k <= String.length a -> Py.drop k (a +:+ b) = Py.drop k a +:+ b.
Proof.
  revert a; induction k as [|k IH]; intros [|x a]; cbn [Py.drop String.append String.length];
    intros Hk; try reflexivity; try lia.
  apply IH. lia.
Qed.

(** After the last dot of a path whose last slash comes earlier there is
    no slash. *)
Lemma no_slash_after_last_dot (pre post : string) :
  (Py.rfind "/"%char (pre +:+ String "."%char post) < Z.of_nat (String.length pre))%Z ->
  Text.has_char "/"%char post = false.
Proof.
  intros Hlt. unfold Py.rfind in Hlt.
  destruct (rfind_from_spec "/"%char (pre +:+ String "."%char post) 0 (-1))
    as [[_ Hno] | [pre' [post' [Hp [Hpost' Hr]]]]].
  - rewrite has_char_app in Hno. apply orb_false_iff in Hno as [_ Hno].
    cbn [Text.has_char] in Hno. now apply orb_false_iff in Hno as [_ Hno].
  - rewrite Hr in Hlt.
    assert (Hk : String.length pre' < String.length pre) by lia.
    pose proof (f_equal (Py.drop (String.length pre')) Hp) as Hd.
    rewrite drop_app, drop_app_le in Hd by lia.
    destruct (drop_cons (String.length pre') pre Hk) as [x Hx].
    rewrite Hx in Hd. cbn [String.append] in Hd. injection Hd as _ Hd.
    rewrite <- Hd, has_char_app in Hpost'.
    apply orb_false_iff in Hpost' as [_ Hpost'].
    cbn [Text.has_char] in Hpost'. now apply orb_false_iff in Hpost' as [_ Hpost'].
Qed.

(** X9. For every name, selected or not, the name is the root followed
    by the extension that [os.path.splitext] cuts off, so the output name
    keeps every character before the extension; the extension is empty,
    or it is the last dot of the name and what follows it, in which there
    is neither a dot nor a slash. *)
Theorem output_name_keeps_the_root (name : string) :
  fst (Py.splitext name) +:+ snd (Py.splitext name) = name
  /\ output_file_of name = fst (Py.splitext name) +:+ ".svg"
  /\ (snd (Py.splitext name) = EmptyString
      \/ exists rest,
           snd (Py.splitext name) = String "."%char rest
           /\ Text.has_char "."%char rest = false
           /\ Text.has_char "/"%char rest = false).
Proof.
  split; [| split; [reflexivity |]].
  - unfold Py.splitext.
    destruct (Py.rfind "/"%char name <? Py.rfind "."%char name)%Z;
      [| apply str_app_nil_r].
    destruct (Py.has_non_dot _ _ _); [apply take_drop | apply str_app_nil_r].
  - unfold Py.splitext.
    destruct (Py.rfind "/"%char name <? Py.rfind "."%char name)%Z eqn:Hlt;
      [| now left].
    destruct (Py.has_non_dot _ _ _); [| now left].
    right. cbn [snd]. apply Z.ltb_lt in Hlt. unfold Py.rfind at 2 in Hlt.
    unfold Py.rfind at 1.
    destruct (rfind_from_spec "."%char name 0 (-1))
      as [[Hr Hno] | [pre [post [Hp [Hpost Hr]]]]].
    + exfalso. rewrite Hr in Hlt. unfold Py.rfind in Hlt.
      destruct (rfind_from_spec "/"%char name 0 (-1))
        as [[Hr' _] | [pre' [post' [_ [_ Hr']]]]]; rewrite Hr' in Hlt; lia.
    + rewrite Hr, Z.add_0_l, Nat2Z.id. subst name. rewrite drop_app.
      exists post. split; [reflexivity | split; [exact Hpost |]].
      apply (no_slash_after_last_dot pre post). rewrite Hr in Hlt. lia.
Qed.

End ExtensionFacts.

(** ** Script 2: what a batch asks of the SDK *)

Section BatchCalls.
Import Proc VssToSvg.
Context `{Env}.

Lemma convert_each_sdk_calls (input_dir output_dir : string) (vss_files : list string) :
  forall (n : nat) (st : State),
  exists evs : list Event,
    calls (snd (convert_each input_dir output_dir vss_files n st))
    = (calls st ++ evs)%list
    /\ List.filter is_load evs
       = map (fun f => Load (input_path_of input_dir f)) vss_files
    /\ (forall e, In e evs -> is_save e = true ->
        exists f, In f vss_files /\ e = Save (output_path_of output_dir f) SVG).
Proof.
  induction vss_files as [|f rest IH]; intros n st.
  - exists []. cbn [convert_each]. unfold ret. cbn [snd map List.filter].
    rewrite app_nil_r. repeat split. intros e [].
  - cbn [convert_each]. unfold bind. rewrite convert_exact.
    change (Py.join input_dir f) with (input_path_of input_dir f).
    change (Py.join output_dir (output_file_of f)) with (output_path_of output_dir f).
    assert (Hrest : forall m st1 (head : list Event),
               List.filter is_load head = [Load (input_path_of input_dir f)] ->
               (forall e, In e head -> is_save e = true ->
                          e = Save (output_path_of output_dir f) SVG) ->
               calls st1 = (calls st ++ head)%list ->
               exists evs : list Event,
                 calls (snd (convert_each input_dir output_dir rest m st1))
                 = (calls st ++ evs)%list
                 /\ List.filter is_load evs
                    = map (fun f => Load (input_path_of input_dir f)) (f :: rest)
                 /\ (forall e, In e evs -> is_save e = true ->
                     exists g, In g (f :: rest)
                               /\ e = Save (output_path_of output_dir g) SVG)).
    { intros m st1 head Hload Hsave Hst1.
      destruct (IH m st1) as [evs [Hcalls [Hloads Hsaves]]].
      exists (head ++ evs)%list. rewrite Hcalls, Hst1, <- app_assoc.
      split; [reflexivity | split].
      - rewrite List.filter_app, Hload, Hloads. reflexivity.
      - intros e Hin He. apply in_app_or in Hin as [Hin | Hin].
        + exists f. split; [now left | now apply Hsave].
        + destruct (Hsaves e Hin He) as [g [Hg ->]].
          exists g. split; [now right | reflexivity]. }
    assert (Hshort : forall ev,
               In ev [Convert (input_path_of input_dir f) (output_path_of output_dir f);
                      Load (input_path_of input_dir f)] ->
               is_save ev = true -> ev = Save (output_path_of output_dir f) SVG).
    { intros ev [<- | [<- | []]] Hev; discriminate Hev. }
    assert (Hlong : forall ev,
               In ev [Convert (input_path_of input_dir f) (output_path_of output_dir f);
                      Load (input_path_of input_dir f);
                      Save (output_path_of output_dir f) SVG] ->
               is_save ev = true -> ev = Save (output_path_of output_dir f) SVG).
    { intros ev [<- | [<- | [<- | []]]] Hev; solve [discriminate Hev | reflexivity]. }
    destruct (Diagram_new (input_path_of input_dir f) (world st)) as [[e | d] w1];
      [| destruct (Diagram_save d (output_path_of output_dir f) SVG w1) as [[e |] w2]];
      cbv beta iota.
    + refine (Hrest _ _ _ _ Hshort _); reflexivity.
    + refine (Hrest _ _ _ _ Hlong _); reflexivity.
    + refine (Hrest _ _ _ _ Hlong _); reflexivity.
Qed.

(** X10. A batch asks the SDK to load each selected name once, from the
    input directory and in the order of the listing, and nothing else;
    every save it asks for is the save, as SVG, of a selected name to its
    path under the output directory. *)
Theorem batch_sdk_calls (input_dir output_dir : string) (w : World) :
  List.filter is_load (calls (snd (batch input_dir output_dir w)))
  = map (fun f => Load (input_path_of input_dir f)) (selected input_dir output_dir w)
  /\ (forall e,
        In e (calls (snd (batch input_dir output_dir w))) -> is_save e = true ->
        exists f, In f (selected input_dir output_dir w)
                  /\ e = Save (output_path_of output_dir f) SVG).
Proof.
  unfold batch, batch_convert_directory, selected, listing.
  cbv [bind os_makedirs os_listdir initial world printed calls].
  rewrite find_vss_files_filter.
  destruct (List.filter is_vss (listdir input_dir (makedirs output_dir w)))
    as [|f rest] eqn:Hsel.
  - cbn. split; [reflexivity | intros e []].
  - cbv [print world printed calls].
    match goal with
    | |- context [convert_each _ _ (f :: rest) 0 ?st1] =>
        destruct (convert_each_sdk_calls input_dir output_dir (f :: rest) 0 st1)
          as [evs [Hcalls [Hloads Hsaves]]];
        destruct (convert_each_run input_dir output_dir (f :: rest) 0 st1)
          as [lines [evs' [E _]]]
    end.
    rewrite E in Hcalls |- *. cbn [snd calls app] in Hcalls |- *.
    subst evs'. split; [exact Hloads | exact Hsaves].
Qed.


End BatchCalls.

(** ** Script 2: a batch on a disk, with the SDK a function of the content *)

Section BatchWorld.
Import Proc VssToSvg.
Context `{Env}.

Lemma world_after_batch (input_dir output_dir : string) (w : World) :
  world (snd (batch input_dir output_dir w))
  = world_after input_dir output_dir (selected input_dir output_dir w)
      (makedirs output_dir w).
Proof.
  pose proof (batch_run input_dir output_dir w) as Hrun.
  destruct (selected input_dir output_dir w) as [|f rest].
  - now rewrite Hrun.
  - destruct Hrun as [lines [evs [-> _]]]. reflexivity.
Qed.

Lemma selected_are_vss (input_dir output_dir : string) (w : World) (f : string) :
  In f (selected input_dir output_dir w) -> is_vss f = true.
Proof. unfold selected. rewrite List.filter_In. now intros [_ Hf]. Qed.

End BatchWorld.

Section DiskBatch.
Import Proc VssToSvg.
Variable D : Type.
Variable parse : string -> string + D.
Variable render : D -> string + string.

Lemma input_differs_from_output (input_dir output_dir f g : string) :
  is_vss f = true ->
  output_path_of output_dir g <> input_path_of input_dir f.
Proof.
  intros Hf Heq. unfold input_path_of, output_path_of in Heq.
  pose proof (loaded_path_ends_in_vss input_dir f Hf) as Hvss.
  pose proof (saved_path_ends_in_svg output_dir (fst (Py.splitext g))) as Hsvg.
  rewrite Heq in Hsvg.
  pose proof (endswith_same_length _ _ _ Hvss Hsvg eq_refl) as Habs.
  discriminate Habs.
Qed.

(** One attempt on the disk: the verdict on the content, and a disk that
    differs at most at the output path. *)
Lemma attempt_on_disk_verdict (input_path output_path : string) (w : Lab.Disk) :
  fst (@attempt (Lab.disk_env D parse render) input_path output_path w)
  = Lab.verdict_on D parse render input_path w
  /\ Lab.dirs (snd (@attempt (Lab.disk_env D parse render) input_path output_path w))
     = Lab.dirs w
  /\ (forall p, p <> output_path ->
      Lab.files (snd (@attempt (Lab.disk_env D parse render) input_path output_path w))
        !! p
      = Lab.files w !! p)
  /\ (Lab.files (snd (@attempt (Lab.disk_env D parse render) input_path output_path w))
      = Lab.files w
      \/ exists content svg,
          Lab.files w !! input_path = Some content
          /\ Lab.svg_of D parse render content = inr svg
          /\ Lab.files (snd (@attempt (Lab.disk_env D parse render)
                               input_path output_path w))
             = <[ output_path := svg ]> (Lab.files w)).
Proof.
  rewrite attempt_on_disk. unfold Lab.verdict_on.
  destruct (Lab.files w !! input_path) as [content |] eqn:Hin; cbn [fst snd].
  - destruct (Lab.svg_of D parse render content) as [e | svg] eqn:Hsvg;
      cbn [fst snd Lab.files Lab.dirs].
    + repeat split; auto.
    + repeat split; [intros p Hp; now rewrite lookup_insert_ne |].
      right. now exists content, svg.
  - repeat split; auto.
Qed.

Lemma attempts_on_disk (input_dir output_dir : string) (w : Lab.Disk)
    (vss_files : list string) :
  (forall f, In f vss_files -> is_vss f = true) ->
  forall w',
    (forall f, is_vss f = true ->
               Lab.files w' !! input_path_of input_dir f
               = Lab.files w !! input_path_of input_dir f) ->
    @attempts (Lab.disk_env D parse render) input_dir output_dir vss_files w'
    = map (fun f => Lab.verdict_on D parse render (input_path_of input_dir f) w)
          vss_files.
Proof.
  induction vss_files as [|f rest IH]; intros Hvss w' Hsame; [reflexivity |].
  cbn [attempts map].
  destruct (attempt_on_disk_verdict (input_path_of input_dir f)
              (output_path_of output_dir f) w') as [Hfst [_ [Hframe _]]].
  destruct (@attempt (Lab.disk_env D parse render) (input_path_of input_dir f)
              (output_path_of output_dir f) w') as [o w1].
  cbn [fst snd] in *. subst o. f_equal.
  - unfold Lab.verdict_on. rewrite Hsame; [reflexivity |]. apply Hvss. now left.
  - apply IH.
    + intros g Hg. apply Hvss. now right.
    + intros g Hg. rewrite Hframe; [now apply Hsame |].
      intros Heq. symmetry in Heq. revert Heq. now apply input_differs_from_output.
Qed.

(** X12. On a disk, with an SDK that is a function of the content, the
    verdict on each selected file of a batch is the verdict on the content
    the file had before the batch: no conversion of the batch alters the
    input of a later one, so the number M of the summary does not depend
    on the order of the listing. *)
Theorem batch_verdicts_from_original_content (input_dir output_dir : string)
    (w : Lab.Disk) :
  @outcomes (Lab.disk_env D parse render) input_dir output_dir w
  = map (fun f => Lab.verdict_on D parse render (input_path_of input_dir f) w)
        (@selected (Lab.disk_env D parse render) input_dir output_dir w).
Proof.
  unfold outcomes.
  rewrite (attempts_on_disk input_dir output_dir w).
  - reflexivity.
  - intros f Hf. exact (selected_are_vss _ _ _ _ Hf).
  - intros f _. cbn [makedirs Lab.disk_env].
    now destruct (Lab.dirs w !! output_dir).
Qed.

End DiskBatch.

Section DiskAfterBatch.
Import Proc VssToSvg.
Variable D : Type.
Variable parse : string -> string + D.
Variable render : D -> string + string.

Lemma world_after_frame (input_dir output_dir : string) (vss_files : list string) :
  forall w',
    Lab.dirs (@world_after (Lab.disk_env D parse render) input_dir output_dir
                vss_files w')
    = Lab.dirs w'
    /\ forall p,
         (forall f, In f vss_files -> output_path_of output_dir f <> p) ->
         Lab.files (@world_after (Lab.disk_env D parse render) input_dir output_dir
                      vss_files w') !! p
         = Lab.files w' !! p.
Proof.
  induction vss_files as [|f rest IH]; intros w'; cbn [world_after].
  - now split.
  - destruct (attempt_on_disk_verdict D parse render (input_path_of input_dir f)
                (output_path_of output_dir f) w') as [_ [Hdirs [Hframe _]]].
    destruct (IH (snd (@attempt (Lab.disk_env D parse render)
                         (input_path_of input_dir f)
                         (output_path_of output_dir f) w'))) as [IHd IHf].
    split; [now rewrite IHd |].
    intros p Hp. rewrite IHf.
    + apply Hframe. intros ->. now apply (Hp f); [left |].
    + intros g Hg. apply Hp. now right.
Qed.

(** X13. On a disk, a batch changes no file but at the output paths of
    the selected names: every other path, and with it every selected
    input, keeps its content, and among the directories only the output
    directory can be new. *)
Theorem batch_changes_only_output_paths (input_dir output_dir : string) (w : Lab.Disk) :
  (forall p,
      (forall f, In f (@selected (Lab.disk_env D parse render) input_dir output_dir w) ->
                 output_path_of output_dir f <> p) ->
      Lab.files (@world (Lab.disk_env D parse render)
                   (snd (@batch (Lab.disk_env D parse render) input_dir output_dir w)))
        !! p
      = Lab.files w !! p)
  /\ (forall f, is_vss f = true ->
      Lab.files (@world (Lab.disk_env D parse render)
                   (snd (@batch (Lab.disk_env D parse render) input_dir output_dir w)))
        !! input_path_of input_dir f
      = Lab.files w !! input_path_of input_dir f)
  /\ (forall d, d <> output_dir ->
      Lab.dirs (@world (Lab.disk_env D parse render)
                  (snd (@batch (Lab.disk_env D parse render) input_dir output_dir w)))
        !! d
      = Lab.dirs w !! d).
Proof.
  rewrite (@world_after_batch (Lab.disk_env D parse render)).
  destruct (world_after_frame input_dir output_dir
              (@selected (Lab.disk_env D parse render) input_dir output_dir w)
              (@makedirs (Lab.disk_env D parse render) output_dir w)) as [Hdirs Hfiles].
  assert (Hmk : Lab.files (@makedirs (Lab.disk_env D parse render) output_dir w)
                = Lab.files w).
  { cbn [makedirs Lab.disk_env]. now destruct (Lab.dirs w !! output_dir). }
  split; [| split].
  - intros p Hp. now rewrite Hfiles, Hmk.
  - intros f Hf. rewrite Hfiles, Hmk; [reflexivity |].
    intros g _. now apply input_differs_from_output.
  - intros d Hd. rewrite Hdirs. cbn [makedirs Lab.disk_env].
    destruct (Lab.dirs w !! output_dir); [reflexivity |].
    cbn [Lab.dirs]. now rewrite lookup_insert_ne.
Qed.

Lemma world_after_lookup (input_dir output_dir : string) (w : Lab.Disk)
    (vss_files : list string) :
  (forall f, In f vss_files -> is_vss f = true) ->
  forall w' p,
    (forall f, is_vss f = true ->
               Lab.files w' !! input_path_of input_dir f
               = Lab.files w !! input_path_of input_dir f) ->
    Lab.files (@world_after (Lab.disk_env D parse render) input_dir output_dir
                 vss_files w') !! p
    = Lab.files w' !! p
    \/ exists g content svg,
         In g vss_files
         /\ output_path_of output_dir g = p
         /\ Lab.files w !! input_path_of input_dir g = Some content
         /\ Lab.svg_of D parse render content = inr svg
         /\ Lab.files (@world_after (Lab.disk_env D parse render) input_dir output_dir
                         vss_files w') !! p
            = Some svg.
Proof.
  induction vss_files as [|h rest IH]; intros Hvss w' p Hsame; cbn [world_after].
  - now left.
  - destruct (attempt_on_disk_verdict D parse render (input_path_of input_dir h)
                (output_path_of output_dir h) w') as [_ [_ [Hframe Hcase]]].
    set (w1 := snd (@attempt (Lab.disk_env D parse render)
                      (input_path_of input_dir h) (output_path_of output_dir h) w'))
      in *.
    assert (Hsame1 : forall f, is_vss f = true ->
                Lab.files w1 !! input_path_of input_dir f
                = Lab.files w !! input_path_of input_dir f).
    { intros f Hf. rewrite Hframe; [now apply Hsame |].
      intros Heq. symmetry in Heq. revert Heq. now apply input_differs_from_output. }
    destruct (IH (fun f Hf => Hvss f (or_intror Hf)) w1 p Hsame1)
      as [Hleft | [g [content [svg [Hg [Hp [Hin [Hsvg Hlook]]]]]]]].
    + destruct Hcase as [Hfiles | [content [svg [Hin [Hsvg Hfiles]]]]].
      * left. now rewrite Hleft, Hfiles.
      * destruct (String.eqb_spec (output_path_of output_dir h) p) as [Hp | Hp].
        -- right. exists h, content, svg.
           split; [now left | split; [exact Hp |]].
           split; [rewrite <- Hsame; [exact Hin | apply Hvss; now left] |].
           split; [exact Hsvg |].
           now rewrite Hleft, Hfiles, Hp, lookup_insert_eq.
        -- left. now rewrite Hleft, Hfiles, lookup_insert_ne.
    + right. exists g, content, svg. now repeat split; [right | | | |].
Qed.

Lemma world_after_converted (input_dir output_dir : string) (w : Lab.Disk)
    (vss_files : list string) :
  (forall f, In f vss_files -> is_vss f = true) ->
  forall w',
    (forall f, is_vss f = true ->
               Lab.files w' !! input_path_of input_dir f
               = Lab.files w !! input_path_of input_dir f) ->
    forall f content svg,
      In f vss_files ->
      Lab.files w !! input_path_of input_dir f = Some content ->
      Lab.svg_of D parse render content = inr svg ->
      exists g content' svg',
        In g vss_files
        /\ output_path_of output_dir g = output_path_of output_dir f
        /\ Lab.files w !! input_path_of input_dir g = Some content'
        /\ Lab.svg_of D parse render content' = inr svg'
        /\ Lab.files (@world_after (Lab.disk_env D parse render) input_dir output_dir
                        vss_files w') !! output_path_of output_dir f
           = Some svg'.
Proof.
  induction vss_files as [|h rest IH]; intros Hvss w' Hsame f content svg Hf Hin Hsvg;
    [destruct Hf |].
  cbn [world_after].
  destruct (attempt_on_disk_verdict D parse render (input_path_of input_dir h)
              (output_path_of output_dir h) w') as [_ [_ [Hframe _]]].
  pose proof (attempt_on_disk D parse render (input_path_of input_dir h)
                (output_path_of output_dir h) w') as Hatt.
  set (w1 := snd (@attempt (Lab.disk_env D parse render)
                    (input_path_of input_dir h) (output_path_of output_dir h) w'))
    in *.
  assert (Hsame1 : forall g, is_vss g = true ->
              Lab.files w1 !! input_path_of input_dir g
              = Lab.files w !! input_path_of input_dir g).
  { intros g Hg. rewrite Hframe; [now apply Hsame |].
    intros Heq. symmetry in Heq. revert Heq. now apply input_differs_from_output. }
  assert (Hrest : forall g, In g rest -> is_vss g = true)
    by (intros g Hg; apply Hvss; now right).
  destruct Hf as [-> | Hf].
  - destruct (world_after_lookup input_dir output_dir w rest Hrest w1
                (output_path_of output_dir f) Hsame1)
      as [Hleft | [g [content' [svg' [Hg [Hp [Hin' [Hsvg' Hlook]]]]]]]].
    + exists f, content, svg. split; [now left | split; [reflexivity |]].
      split; [exact Hin | split; [exact Hsvg |]].
      rewrite Hleft. subst w1. rewrite Hatt.
      rewrite Hsame, Hin, Hsvg by (apply Hvss; now left).
      cbn [snd Lab.files]. apply lookup_insert_eq.
    + exists g, content', svg'. now repeat split; [right | | | |].
  - destruct (IH Hrest w1 Hsame1 f content svg Hf Hin Hsvg)
      as [g [content' [svg' [Hg [Hp [Hin' [Hsvg' Hlook]]]]]]].
    exists g, content', svg'. now repeat split; [right | | | |].
Qed.

(** X14. On a disk, after a batch, the output path of every selected
    file whose content the SDK converts holds an SVG: that of the file
    itself, or that of a selected file saved to the same path. *)
Theorem batch_leaves_svg_at_output_paths (input_dir output_dir : string)
    (w : Lab.Disk) (f content svg : string) :
  In f (@selected (Lab.disk_env D parse render) input_dir output_dir w) ->
  Lab.files w !! input_path_of input_dir f = Some content ->
  Lab.svg_of D parse render content = inr svg ->
  exists g content' svg',
    In g (@selected (Lab.disk_env D parse render) input_dir output_dir w)
    /\ output_path_of output_dir g = output_path_of output_dir f
    /\ Lab.files w !! input_path_of input_dir g = Some content'
    /\ Lab.svg_of D parse render content' = inr svg'
    /\ Lab.files (@world (Lab.disk_env D parse render)
                    (snd (@batch (Lab.disk_env D parse render) input_dir output_dir w)))
         !! output_path_of output_dir f
       = Some svg'.
Proof.
  intros Hf Hin Hsvg.
  rewrite (@world_after_batch (Lab.disk_env D parse render)).
  apply (world_after_converted input_dir output_dir w) with (content := content) (svg := svg);
    try assumption.
  - intros g Hg. exact (selected_are_vss _ _ _ _ Hg).
  - intros g _. cbn [makedirs Lab.disk_env].
    now destruct (Lab.dirs w !! output_dir).
Qed.

End DiskAfterBatch.

(** ** Script 1: the printed lines, the helper and the transcripts *)

Section InstallCertSshMore.
Import Proc InstallCertSsh.
Context `{Env}.

Ltac not_line H :=
  cbv [msg_connect_failed msg_install_failed msg_config_failed
       msg_files_missing msg_completed] in H;
  cbn [String.append] in H; discriminate H.

Ltac line_absent :=
  let H := fresh "H" in
  cbv [In]; intros H;
  repeat (destruct H as [H | H]; [not_line H |]); exact H.

Ltac line_present :=
  cbv [In msg_connect_failed msg_install_failed msg_config_failed
       msg_files_missing msg_completed];
  repeat (first [left; reflexivity | right]).

Ltac lines := repeat split; first [line_absent | line_present].

Ltac unfold_run :=
  cbv [run main bind print os_path_exists read_file communicate
    sys_exit ret initial world printed sessions exit_code
    files_present answer1 answer2 answer3 upload_script fst snd negb andb orb].

(** The lines that tell how a run ended, in each of its five courses. *)
Lemma run_lines (cfg : Config) (w : World) :
  if negb (files_present cfg w)
  then In (msg_files_missing cfg) (printed (snd (run cfg w)))
       /\ ~ In msg_install_failed (printed (snd (run cfg w)))
       /\ ~ In msg_config_failed (printed (snd (run cfg w)))
       /\ ~ In msg_completed (printed (snd (run cfg w)))
  else if negb ((returncode (fst (answer1 cfg w)) =? 0)%Z
                && Py.contains "Version:" (stdout (fst (answer1 cfg w))))
  then ~ In (msg_files_missing cfg) (printed (snd (run cfg w)))
       /\ ~ In msg_install_failed (printed (snd (run cfg w)))
       /\ ~ In msg_config_failed (printed (snd (run cfg w)))
       /\ ~ In msg_completed (printed (snd (run cfg w)))
  else if negb (returncode (fst (answer2 cfg w)) =? 0)%Z
  then ~ In (msg_files_missing cfg) (printed (snd (run cfg w)))
       /\ In msg_install_failed (printed (snd (run cfg w)))
       /\ In ("Error: " +:+ stderr (fst (answer2 cfg w))) (printed (snd (run cfg w)))
       /\ ~ In msg_config_failed (printed (snd (run cfg w)))
       /\ ~ In msg_completed (printed (snd (run cfg w)))
  else if negb (returncode (fst (answer3 cfg w)) =? 0)%Z
  then ~ In (msg_files_missing cfg) (printed (snd (run cfg w)))
       /\ ~ In msg_install_failed (printed (snd (run cfg w)))
       /\ In msg_config_failed (printed (snd (run cfg w)))
       /\ ~ In msg_completed (printed (snd (run cfg w)))
  else ~ In (msg_files_missing cfg) (printed (snd (run cfg w)))
       /\ ~ In msg_install_failed (printed (snd (run cfg w)))
       /\ ~ In msg_config_failed (printed (snd (run cfg w)))
       /\ In msg_completed (printed (snd (run cfg w))).
Proof.
  unfold_run.
  destruct (path_exists (cert_file cfg) w);
    [destruct (path_exists (key_file cfg) w) |];
    cbv beta iota; cbv [app]; try solve [lines].
  destruct (expect (test_script cfg) w) as [a1 w1]. cbv beta iota.
  destruct (returncode a1 =? 0)%Z;
    [destruct (Py.contains "Version:" (stdout a1)) |];
    cbv beta iota; cbv [app]; try solve [lines].
  destruct (expect _ w1) as [a2 w2]. cbv beta iota.
  destruct (returncode a2 =? 0)%Z; cbv beta iota; cbv [app]; try solve [lines].
  destruct (expect _ w2) as [a3 w3]. cbv beta iota.
  destruct (returncode a3 =? 0)%Z; cbv beta iota; cbv [app]; lines.
Qed.

(** X15. The lines of a run tell how it ended: the completion line is
    printed exactly when the exit code is 0; the line about the missing
    files exactly when one of the two files is missing; the line about
    the failed installation exactly when the upload is the step that
    failed, and then the standard error of [expect] is printed after
    [Error: ]; the line about the HTTPS configuration exactly when the
    third session is the step that failed. *)
Theorem printed_lines_tell_the_outcome (cfg : Config) (w : World) :
  (In msg_completed (printed (snd (run cfg w))) <-> fst (run cfg w) = 0%Z)
  /\ (In (msg_files_missing cfg) (printed (snd (run cfg w)))
      <-> files_present cfg w = false)
  /\ (In msg_install_failed (printed (snd (run cfg w)))
      <-> files_present cfg w = true
          /\ connected (fst (answer1 cfg w))
          /\ ~ succeeded (fst (answer2 cfg w)))
  /\ (In msg_config_failed (printed (snd (run cfg w)))
      <-> files_present cfg w = true
          /\ connected (fst (answer1 cfg w))
          /\ succeeded (fst (answer2 cfg w))
          /\ ~ succeeded (fst (answer3 cfg w)))
  /\ (In msg_install_failed (printed (snd (run cfg w))) ->
      In ("Error: " +:+ stderr (fst (answer2 cfg w))) (printed (snd (run cfg w)))).
Proof.
  pose proof (run_course cfg w) as Hcourse.
  pose proof (run_lines cfg w) as Hlines.
  pose proof (connected_spec (fst (answer1 cfg w))) as H1.
  pose proof (succeeded_spec (fst (answer2 cfg w))) as H2.
  pose proof (succeeded_spec (fst (answer3 cfg w))) as H3.
  destruct (files_present cfg w); cbn [negb] in *;
    [| intuition congruence].
  destruct ((returncode (fst (answer1 cfg w)) =? 0)%Z
            && Py.contains "Version:" (stdout (fst (answer1 cfg w))));
    cbn [negb] in *; [| intuition congruence].
  destruct (returncode (fst (answer2 cfg w)) =? 0)%Z; cbn [negb] in *;
    [| intuition congruence].
  destruct (returncode (fst (answer3 cfg w)) =? 0)%Z; cbn [negb] in *;
    intuition congruence.
Qed.

End InstallCertSshMore.

Section InstallCertSshHelper.
Import Proc InstallCertSsh.
Context `{Env}.

(** X16. [run_ssh_command] has no [sys.exit]: for every command and
    from every state it returns, and what it returns is the exit status,
    the output and the error output of the one [expect] process it ran on
    the transcript of the command.  It opens exactly that one session and
    prints nothing; what it does does not depend on [expect_prompts]; and
    for the command [get system status] its session is the connectivity
    test of [main]: the same transcript, hence from the same world the
    same answer and the same world left. *)
Theorem run_ssh_command_is_the_connectivity_test
    (cfg : Config) (command : string) (prompts prompts' : list string) (st : State)
    (w : World) :
  run_ssh_command cfg command prompts st
  = (Ret (returncode (fst (expect (expect_script cfg command) (world st))),
          stdout (fst (expect (expect_script cfg command) (world st))),
          stderr (fst (expect (expect_script cfg command) (world st)))),
     {| world := snd (expect (expect_script cfg command) (world st));
        printed := printed st;
        sessions := (sessions st ++ [expect_script cfg command])%list |})
  /\ run_ssh_command cfg command prompts st = run_ssh_command cfg command prompts' st
  /\ expect_script cfg "get system status" = test_script cfg
  /\ fst (run_ssh_command cfg "get system status" prompts (initial w))
     = Ret (returncode (fst (answer1 cfg w)),
            stdout (fst (answer1 cfg w)),
            stderr (fst (answer1 cfg w)))
  /\ world (snd (run_ssh_command cfg "get system status" prompts (initial w)))
     = snd (answer1 cfg w)
  /\ sessions (snd (run_ssh_command cfg "get system status" prompts (initial w)))
     = [test_script cfg].
Proof.
  split; [| split; [reflexivity | split; [reflexivity |]]].
  - cbv [run_ssh_command bind communicate ret world printed sessions].
    destruct (expect (expect_script cfg command) (let (w0, _, _) := st in w0))
      as [r w1].
    reflexivity.
  - cbv [run_ssh_command bind communicate ret initial answer1 world printed sessions].
    change (expect_script cfg "get system status") with (test_script cfg).
    destruct (expect (test_script cfg) w) as [r' w'].
    cbn [fst snd]. repeat split.
Qed.

Lemma line_occurs (before segment after : list string) (script : string) :
  script = transcript (before ++ segment ++ after) ->
  Text.occurs (body segment) script.
Proof.
  intros ->. unfold Text.occurs, transcript.
  exists (Py.nl +:+ body before), (body after).
  now rewrite !body_app, !str_app_assoc.
Qed.

Lemma transcript_starts (line : string) (rest : list string) :
  Py.startswith (transcript (line :: rest)) (Py.nl +:+ line +:+ Py.nl) = true.
Proof.
  apply startswith_spec. exists (body rest). unfold transcript. cbn [body].
  now rewrite !str_app_assoc.
Qed.

(** X17. Each transcript the script can pipe to [expect] starts by
    spawning [ssh], host-key checking off, for the configured user at the
    configured address, and answers the password prompt with the
    configured password, in clear. *)
Theorem every_session_logs_in_with_the_password
    (cfg : Config) (command cert key : string) (script : string) :
  In script [test_script cfg; install_script cfg cert key; config_script cfg;
             expect_script cfg command] ->
  Py.startswith script
    (Py.nl +:+ "spawn ssh -o StrictHostKeyChecking=no -o UserKnownHostsFile=/dev/null "
     +:+ FORTIGATE_USER cfg +:+ "@" +:+ FORTIGATE_IP cfg +:+ Py.nl) = true
  /\ Text.occurs
       ("expect " +:+ Py.dq +:+ "password:" +:+ Py.dq +:+ Py.nl
        +:+ "send " +:+ Py.dq +:+ FORTIGATE_PASS cfg +:+ "\r" +:+ Py.dq +:+ Py.nl)
       script.
Proof.
  assert (Hseg : "expect " +:+ Py.dq +:+ "password:" +:+ Py.dq +:+ Py.nl
                 +:+ "send " +:+ Py.dq +:+ FORTIGATE_PASS cfg +:+ "\r" +:+ Py.dq +:+ Py.nl
                 = body [expect_ "password:"; send (FORTIGATE_PASS cfg)]).
  { cbn [body]. unfold expect_, send. rewrite !str_app_assoc, str_app_nil_r.
    reflexivity. }
  assert (Hpre : Py.nl
                 +:+ "spawn ssh -o StrictHostKeyChecking=no -o UserKnownHostsFile=/dev/null "
                 +:+ FORTIGATE_USER cfg +:+ "@" +:+ FORTIGATE_IP cfg +:+ Py.nl
                 = Py.nl +:+ spawn_ssh cfg +:+ Py.nl).
  { unfold spawn_ssh. now rewrite !str_app_assoc. }
  rewrite Hseg, Hpre.
  intros [<- | [<- | [<- | [<- | []]]]]; (split; [apply transcript_starts |]).
  - eapply (line_occurs [spawn_ssh cfg]). reflexivity.
  - eapply (line_occurs [spawn_ssh cfg; "set timeout 60"]). reflexivity.
  - eapply (line_occurs [spawn_ssh cfg]). reflexivity.
  - eapply (line_occurs [spawn_ssh cfg]). reflexivity.
Qed.

End InstallCertSshHelper.

(** ** Script 1: the escaping and the stripped texts *)

Section EscapeFacts.
Import Proc InstallCertSsh.

Lemma backslash_quotes_head (s t : string) :
  Text.backslash_quotes s <> String "034"%char t.
Proof.
  destruct s as [|c s]; cbn [Text.backslash_quotes]; [discriminate |].
  destruct (Ascii.eqb_spec c "034"%char) as [-> | Hc]; [discriminate |].
  intros E. injection E as E _. contradiction.
Qed.

Lemma backslash_quotes_no_bare_quote (s : string) :
  forall pre post,
    Text.backslash_quotes s = pre +:+ Py.dq +:+ post ->
    exists pre', pre = pre' +:+ Py.bs.
Proof.
  unfold Py.dq, Py.bs.
  induction s as [|c s IH]; intros pre post E; cbn [Text.backslash_quotes] in E.
  - destruct pre; discriminate E.
  - destruct (Ascii.eqb_spec c "034"%char) as [-> | Hc].
    + destruct pre as [|x [|y pre]]; cbn [String.append] in E.
      * discriminate E.
      * injection E as Ex _. subst x. now exists EmptyString.
      * injection E as Ex Ey E. subst x y. destruct (IH pre post E) as [pre' ->].
        now exists (String "092"%char (String "034"%char pre')).
    + destruct pre as [|x pre]; cbn [String.append] in E.
      * injection E as E _. contradiction.
      * injection E as Ex E. subst x. destruct (IH pre post E) as [pre' ->].
        now exists (String c pre').
Qed.

(** X18. In the escaped text no double quote stands bare: each one is
    preceded by a backslash. *)
Theorem escaped_text_has_no_bare_quote (s pre post : string) :
  escape_quotes s = pre +:+ Py.dq +:+ post ->
  exists pre', pre = pre' +:+ Py.bs.
Proof.
  rewrite escape_quotes_spec. apply backslash_quotes_no_bare_quote.
Qed.

Lemma backslash_quotes_length (s : string) :
  String.length s <= String.length (Text.backslash_quotes s)
  /\ (Text.has_char "034"%char s = true ->
      String.length s < String.length (Text.backslash_quotes s)).
Proof.
  induction s as [|c s [IHle IHlt]]; cbn [Text.backslash_quotes Text.has_char String.length].
  - split; [lia | discriminate].
  - destruct (Ascii.eqb c "034"%char); cbn [String.length orb].
    + split; [lia | intros _; lia].
    + split; [lia | intros Hs; specialize (IHlt Hs); lia].
Qed.

(** X19. The escaping leaves a text as it is exactly when the text holds
    no double quote, as is the case of a PEM file. *)
Theorem escaping_keeps_quote_free_text (s : string) :
  escape_quotes s = s <-> Text.has_char "034"%char s = false.
Proof.
  rewrite escape_quotes_spec. split.
  - intros E. destruct (Text.has_char "034"%char s) eqn:Hq; [| reflexivity].
    destruct (backslash_quotes_length s) as [_ Hlt]. specialize (Hlt Hq).
    rewrite E in Hlt. lia.
  - induction s as [|c s IH]; cbn [Text.backslash_quotes Text.has_char];
      [reflexivity |].
    rewrite orb_false_iff. intros [-> Hs]. now rewrite IH.
Qed.

(** X20. The escaping loses nothing: two texts with the same escaped
    text are the same text. *)
Theorem escaping_is_injective (s1 s2 : string) :
  escape_quotes s1 = escape_quotes s2 -> s1 = s2.
Proof.
  rewrite !escape_quotes_spec. revert s2.
  induction s1 as [|c1 s1 IH]; intros [|c2 s2]; cbn [Text.backslash_quotes];
    try reflexivity.
  - destruct (Ascii.eqb c2 "034"%char); discriminate.
  - destruct (Ascii.eqb c1 "034"%char); discriminate.
  - destruct (Ascii.eqb_spec c1 "034"%char) as [-> | H1];
      destruct (Ascii.eqb_spec c2 "034"%char) as [-> | H2]; intros E.
    + injection E as E. now rewrite (IH s2 E).
    + injection E as _ E. symmetry in E. now apply backslash_quotes_head in E.
    + injection E as _ E. now apply backslash_quotes_head in E.
    + injection E as Ec E. subst c2. now rewrite (IH s2 E).
Qed.

End EscapeFacts.

Section BlankFile.
Import Proc InstallCertSsh.
Context `{Env}.


End BlankFile.

(** ** The further properties on the concrete machines *)

Section MoreRuns.
Import Proc.

(** A path that is not on the disk: the load raises, nothing is saved. *)
Lemma conversion_call_discipline_witness :
  fst (@VssToSvg.Diagram_new Lab.toy_env "in/none.vss" Lab.stencils)
  = inl "File not found: in/none.vss"
  /\ @VssToSvg.world Lab.toy_env
       (snd (@VssToSvg.convert_vss_to_svg Lab.toy_env "in/none.vss" "out/none.svg"
               (@VssToSvg.initial Lab.toy_env Lab.stencils)))
     = Lab.stencils
  /\ fst (@VssToSvg.convert_vss_to_svg Lab.toy_env "in/none.vss" "out/none.svg"
            (@VssToSvg.initial Lab.toy_env Lab.stencils))
     = Ret false.
Proof.
  split; [vm_compute; reflexivity |].
  destruct (@conversion_call_discipline Lab.toy_env "in/none.vss" "out/none.svg"
              (@VssToSvg.initial Lab.toy_env Lab.stencils)) as [_ Hraised].
  destruct (Hraised "File not found: in/none.vss") as [Hworld Hret];
    [vm_compute; reflexivity |].
  split; [| exact Hret].
  rewrite Hworld. vm_compute. reflexivity.
Defined.

(** One argument only. *)
Lemma other_arguments_print_usage_witness :
  List.length ["prog"; "--help"] <> 3
  /\ @VssToSvg.run Lab.toy_env ["prog"; "--help"] Lab.stencils
     = (1%Z, @VssToSvg.Build_State Lab.toy_env Lab.stencils VssToSvg.usage_lines []).
Proof.
  split; [cbn; lia |].
  apply (@other_arguments_print_usage Lab.toy_env ["prog"; "--help"] Lab.stencils).
  - cbn; lia.
  - cbn. intros Hlen. discriminate Hlen.
Defined.

(** The input directory is a file. *)
Lemma batch_mode_without_directory_witness :
  @VssToSvg.path_isdir Lab.toy_env "in/ap.vss" Lab.stencils = false
  /\ @VssToSvg.run Lab.toy_env ["prog"; "--batch"; "in/ap.vss"; "out"] Lab.stencils
     = (1%Z, @VssToSvg.Build_State Lab.toy_env Lab.stencils
                ["❌ Input directory not found: in/ap.vss"] []).
Proof.
  split; [vm_compute; reflexivity |].
  apply (@batch_mode_without_directory Lab.toy_env "prog" "in/ap.vss" "out" Lab.stencils).
  vm_compute. reflexivity.
Defined.

(** Converting in place: the SVG goes beside the stencil. *)
Lemma batch_never_saves_over_an_input_witness :
  VssToSvg.is_vss "Switch.VSS" = true
  /\ VssToSvg.input_path_of "in" "Switch.VSS" <> VssToSvg.output_path_of "in" "Switch.VSS".
Proof.
  split; [reflexivity |].
  apply batch_never_saves_over_an_input. reflexivity.
Defined.

(** [ap.vss] and [ap.VSS] are both saved to [out/ap.svg]. *)
Lemma names_differing_by_case_share_output_witness :
  Py.lower ".vss" = ".vss" /\ Py.lower ".VSS" = ".vss"
  /\ VssToSvg.output_path_of "out" "ap.vss" = "out/ap.svg"
  /\ VssToSvg.output_path_of "out" "ap.VSS" = "out/ap.svg".
Proof.
  split; [reflexivity | split; [reflexivity |]].
  apply (names_differing_by_case_share_output "out" "ap" ".vss" ".VSS"); reflexivity.
Defined.

Lemma output_is_a_child_of_the_output_directory_witness :
  Text.has_char "/"%char "Switch.VSS" = false
  /\ VssToSvg.output_path_of "out" "Switch.VSS" = "out/Switch.svg"
  /\ VssToSvg.output_path_of "out/" "Switch.VSS" = "out/Switch.svg".
Proof.
  split; [reflexivity |].
  destruct (output_is_a_child_of_the_output_directory "out" "Switch.VSS" eq_refl)
    as [_ [Hslash _]].
  destruct (output_is_a_child_of_the_output_directory "out/" "Switch.VSS" eq_refl)
    as [Hplain _].
  split.
  - apply Hslash; [discriminate | reflexivity].
  - apply Hplain. right. reflexivity.
Defined.

(** Every save of the batch on the stencils is the save of a stencil. *)
Lemma batch_sdk_calls_witness :
  In (VssToSvg.Save "out/ap.svg" VssToSvg.SVG)
     (VssToSvg.calls (snd (@VssToSvg.batch Lab.toy_env "in" "out" Lab.stencils)))
  /\ exists f,
       In f (@VssToSvg.selected Lab.toy_env "in" "out" Lab.stencils)
       /\ VssToSvg.Save "out/ap.svg" VssToSvg.SVG
          = VssToSvg.Save (VssToSvg.output_path_of "out" f) VssToSvg.SVG.
Proof.
  assert (Hin : In (VssToSvg.Save "out/ap.svg" VssToSvg.SVG)
                   (VssToSvg.calls
                      (snd (@VssToSvg.batch Lab.toy_env "in" "out" Lab.stencils))))
    by (vm_compute; auto 10).
  split; [exact Hin |].
  destruct (@batch_sdk_calls Lab.toy_env "in" "out" Lab.stencils) as [_ Hsaves].
  exact (Hsaves _ Hin eq_refl).
Defined.


(** The notes beside the stencils are left alone. *)
Lemma batch_changes_only_output_paths_witness :
  (forall f, In f (@VssToSvg.selected Lab.toy_env "in" "out" Lab.stencils) ->
             VssToSvg.output_path_of "out" f <> "in/notes.txt")
  /\ Lab.files (VssToSvg.world (snd (@VssToSvg.batch Lab.toy_env "in" "out" Lab.stencils)))
       !! "in/notes.txt"
     = Lab.files Lab.stencils !! "in/notes.txt".
Proof.
  assert (Hother : forall f,
             In f (@VssToSvg.selected Lab.toy_env "in" "out" Lab.stencils) ->
             VssToSvg.output_path_of "out" f <> "in/notes.txt").
  { intros f Hf. vm_compute in Hf.
    destruct Hf as [<- | [<- | [<- | []]]]; vm_compute; discriminate. }
  split; [exact Hother |].
  destruct (batch_changes_only_output_paths string Lab.toy_parse Lab.toy_render
              "in" "out" Lab.stencils) as [Hframe _].
  exact (Hframe "in/notes.txt" Hother).
Defined.

(** Of the twins, one SVG is left at the path they share. *)
Lemma batch_leaves_svg_at_output_paths_witness :
  In "ap.vss" (@VssToSvg.selected Lab.toy_env "in" "out" Lab.twins)
  /\ exists g content' svg',
       In g (@VssToSvg.selected Lab.toy_env "in" "out" Lab.twins)
       /\ VssToSvg.output_path_of "out" g = VssToSvg.output_path_of "out" "ap.vss"
       /\ Lab.files Lab.twins !! VssToSvg.input_path_of "in" g = Some content'
       /\ Lab.svg_of string Lab.toy_parse Lab.toy_render content' = inr svg'
       /\ Lab.files (VssToSvg.world (snd (@VssToSvg.batch Lab.toy_env "in" "out" Lab.twins)))
            !! VssToSvg.output_path_of "out" "ap.vss"
          = Some svg'.
Proof.
  assert (Hsel : In "ap.vss" (@VssToSvg.selected Lab.toy_env "in" "out" Lab.twins))
    by (vm_compute; auto).
  split; [exact Hsel |].
  apply (batch_leaves_svg_at_output_paths string Lab.toy_parse Lab.toy_render
           "in" "out" Lab.twins "ap.vss" "VSS small" "<svg>VSS small</svg>" Hsel);
    vm_compute; reflexivity.
Defined.

Lemma printed_lines_tell_the_outcome_witness :
  fst (@InstallCertSsh.run Lab.bench_env Lab.cfg Lab.reachable) = 0%Z
  /\ In InstallCertSsh.msg_completed
        (InstallCertSsh.printed (snd (@InstallCertSsh.run Lab.bench_env Lab.cfg Lab.reachable))).
Proof.
  assert (Hcode : fst (@InstallCertSsh.run Lab.bench_env Lab.cfg Lab.reachable) = 0%Z)
    by (vm_compute; reflexivity).
  split; [exact Hcode |].
  destruct (@printed_lines_tell_the_outcome Lab.bench_env Lab.cfg Lab.reachable)
    as [[_ Hdone] _].
  exact (Hdone Hcode).
Defined.

Lemma every_session_logs_in_with_the_password_witness :
  In (InstallCertSsh.config_script Lab.cfg)
     [InstallCertSsh.test_script Lab.cfg;
      InstallCertSsh.install_script Lab.cfg "C" "K";
      InstallCertSsh.config_script Lab.cfg;
      InstallCertSsh.expect_script Lab.cfg "get system status"]
  /\ Text.occurs
       ("expect " +:+ Py.dq +:+ "password:" +:+ Py.dq +:+ Py.nl
        +:+ "send " +:+ Py.dq +:+ "secret" +:+ "\r" +:+ Py.dq +:+ Py.nl)
       (InstallCertSsh.config_script Lab.cfg).
Proof.
  assert (Hin : In (InstallCertSsh.config_script Lab.cfg)
                   [InstallCertSsh.test_script Lab.cfg;
                    InstallCertSsh.install_script Lab.cfg "C" "K";
                    InstallCertSsh.config_script Lab.cfg;
                    InstallCertSsh.expect_script Lab.cfg "get system status"])
    by (right; right; left; reflexivity).
  split; [exact Hin |].
  apply (every_session_logs_in_with_the_password Lab.cfg
           "get system status" "C" "K" _ Hin).
Defined.

Lemma escaped_text_has_no_bare_quote_witness :
  InstallCertSsh.escape_quotes ("a" +:+ Py.dq +:+ "b")
  = ("a" +:+ Py.bs) +:+ Py.dq +:+ "b"
  /\ exists pre', "a" +:+ Py.bs = pre' +:+ Py.bs.
Proof.
  split; [reflexivity |].
  apply (escaped_text_has_no_bare_quote ("a" +:+ Py.dq +:+ "b") ("a" +:+ Py.bs) "b").
  reflexivity.
Defined.

Lemma escaping_is_injective_witness :
  InstallCertSsh.escape_quotes (Py.bs +:+ Py.dq)
  = InstallCertSsh.escape_quotes (String "092"%char (String "034"%char EmptyString))
  /\ Py.bs +:+ Py.dq = String "092"%char (String "034"%char EmptyString).
Proof.
  split; [reflexivity |].
  apply escaping_is_injective. reflexivity.
Defined.



End MoreRuns.
